(** * Cycle-length training script: the feature pipeline of ml/train_model.py

    A shallow embedding of [prepare_features_per_person], [prepare_dataset]
    and the control flow of [main], with the properties the specification
    states about them.

    Numbers are IEEE binary64 values ([float], Rocq's primitive floats), the
    type of Python's [float] and of numpy's [float64]; comparisons are the
    IEEE ones, so [nan] compares false with everything. Python exceptions are
    the left summand of an error monad. *)

From Stdlib Require Import List String Ascii ZArith Lia Bool Floats.
From Stdlib Require Import Reals Lra.
Import ListNotations.

Local Open Scope string_scope.
Local Open Scope list_scope.
Local Open Scope nat_scope.

(** ** Exceptions *)

Inductive exn : Type :=
| KeyError (key : string)
| IndexError
| ValueError
| OtherError (class_name : string).

Definition M (A : Type) : Type := (exn + A)%type.

Definition ret {A : Type} (a : A) : M A := inr a.
Definition raise {A : Type} (e : exn) : M A := inl e.
Definition bind {A B : Type} (m : M A) (k : A -> M B) : M B :=
  match m with
  | inl e => inl e
  | inr a => k a
  end.

Notation "x <- m ;; k" := (bind m (fun x => k))
  (at level 61, m at next level, right associativity).

(** [for x in xs: state = body(state, x)]; the first exception ends the loop. *)
Fixpoint for_each {A S : Type} (xs : list A) (body : S -> A -> M S) (s : S) : M S :=
  match xs with
  | [] => ret s
  | x :: rest => s' <- body s x ;; for_each rest body s'
  end.

(** Python's [range(n)]. *)
Definition range (n : nat) : list nat := seq 0 n.

(** ** numpy on one-dimensional float64 arrays *)

Module np.

(** [a[i:j]] for [0 <= i <= j]: slicing clamps to the array. *)
Definition slice {A : Type} (a : list A) (i j : nat) : list A :=
  firstn (j - i) (skipn i a).

(** [a[i]] for [0 <= i]: out of range is an [IndexError]. *)
Definition item {A : Type} (a : list A) (i : nat) : M A :=
  match nth_error a i with
  | Some x => ret x
  | None => raise IndexError
  end.

Definition of_nat (n : nat) : float :=
  PrimFloat.of_uint63 (Uint63.of_Z (Z.of_nat n)).

(** [np.add.reduce]: the accumulator starts at the identity [0]; arrays of
    fewer than 8 elements (every array this script sums when
    [sequence_length < 8]) are added left to right from [-0]. *)
Definition sum (a : list float) : float :=
  (0 + fold_left PrimFloat.add a (-0))%float.

(** [np.mean]: the sum divided by the count ([nan] for an empty array). *)
Definition mean (a : list float) : float :=
  (sum a / of_nat (List.length a))%float.

(** [np.std] with [ddof = 0]: the root of the mean squared deviation. *)
Definition std (a : list float) : float :=
  let arrmean := mean a in
  let x := map (fun v => (v - arrmean)%float) a in
  let x := map (fun v => (v * v)%float) x in
  PrimFloat.sqrt (sum x / of_nat (List.length a))%float.

(** [np.minimum] and [np.maximum] on two values; a [nan] propagates. *)
Definition minimum (u v : float) : float :=
  if (u <=? v)%float || PrimFloat.is_nan u then u else v.
Definition maximum (u v : float) : float :=
  if (v <=? u)%float || PrimFloat.is_nan u then u else v.

(** [np.min] and [np.max]: reductions without identity, a [ValueError] on
    an empty array. *)
Definition min (a : list float) : M float :=
  match a with
  | [] => raise ValueError
  | v :: rest => ret (fold_left minimum rest v)
  end.
Definition max (a : list float) : M float :=
  match a with
  | [] => raise ValueError
  | v :: rest => ret (fold_left maximum rest v)
  end.

End np.

(** ** pandas: tables as read by [read_csv] *)

Module pd.

(** A cell is a number (a missing entry of a numeric column is [nan]) or
    text. *)
Inductive Cell : Type :=
| Num (x : float)
| Str (s : string).

(** A row gives the cell under each column name; only the names listed in
    [columns] are ever read. *)
Definition Row : Type := string -> Cell.

Record DataFrame : Type := mkDataFrame {
  columns : list string;
  rows : list Row
}.

(** [name in df.columns] *)
Definition has_column (df : DataFrame) (name : string) : bool :=
  existsb (String.eqb name) (columns df).

(** [df[name]]: a [KeyError] when there is no such column. *)
Definition getitem (df : DataFrame) (name : string) : M (list Cell) :=
  if has_column df name then ret (map (fun r => r name) (rows df))
  else raise (KeyError name).

(** [series.iloc[0]] *)
Definition iloc0 (series : list Cell) : M Cell := np.item series 0.

(** [series.dropna().values] on a numeric series. *)
Definition dropna (series : list float) : list float :=
  filter (fun x => negb (PrimFloat.is_nan x)) series.

(** [series == value], element by element. *)
Definition cell_eqb (c d : Cell) : bool :=
  match c, d with
  | Num x, Num y => (x =? y)%float
  | Str s, Str t => String.eqb s t
  | _, _ => false
  end.

(** The equality [unique] groups by: as [cell_eqb], but all [nan] are one
    value. *)
Definition same_key (c d : Cell) : bool :=
  match c, d with
  | Num x, Num y => (x =? y)%float || (PrimFloat.is_nan x && PrimFloat.is_nan y)
  | _, _ => cell_eqb c d
  end.

(** [series.unique()]: the distinct values in order of first appearance. *)
Fixpoint unique_from (seen : list Cell) (series : list Cell) : list Cell :=
  match series with
  | [] => []
  | c :: rest =>
      if existsb (same_key c) seen then unique_from seen rest
      else c :: unique_from (c :: seen) rest
  end.
Definition unique (series : list Cell) : list Cell := unique_from [] series.

(** [df[mask]] with the mask computed row by row. *)
Definition select (df : DataFrame) (keep : Row -> bool) : DataFrame :=
  mkDataFrame (columns df) (filter keep (rows df)).

End pd.

Import pd.

(** ** Strings: [str.lower] and [needle in haystack] *)

Definition lower_ascii (c : ascii) : ascii :=
  let n := nat_of_ascii c in
  if (65 <=? n) && (n <=? 90) then ascii_of_nat (n + 32) else c.

(** [s.lower()]. Column names are byte strings here; the only characters
    whose lower case is among the letters of "id" and "client" are the ASCII
    capitals. *)
Fixpoint lower (s : string) : string :=
  match s with
  | EmptyString => EmptyString
  | String c rest => String (lower_ascii c) (lower rest)
  end.

(** [needle in haystack] *)
Fixpoint contains (needle haystack : string) : bool :=
  String.prefix needle haystack ||
  match haystack with
  | EmptyString => false
  | String _ rest => contains needle rest
  end.

(** ** The script *)

Definition DATASET_PATH : string :=
  "/home/lbl/Desktop/Coding/Period Data/FedCycleData071012 (2).xls".
Definition SEQUENCE_LENGTH : nat := 6.

(** The state of the sliding-window loop: [(X_samples, y_samples)]. *)
Definition Samples : Type := (list (list float) * list float)%type.

(** [v < 15 or v > 60] *)
Definition out_of_range (v : float) : bool :=
  ((v <? 15) || (60 <? v))%float.

(** [(prev_periods > 0) & (prev_periods < 15)] *)
Definition valid_period (p : float) : bool :=
  ((0 <? p) && (p <? 15))%float.

Section Script.

(** What [pd.to_numeric(..., errors='coerce')] makes of a text cell: the
    number it parses to, [nan] when it does not parse. *)
Variable str_to_float : string -> float.

(** [df.sort_values(column)], pandas' sort of the rows by one column. *)
Variable sort_values : DataFrame -> string -> DataFrame.

Definition to_numeric_scalar (c : Cell) : float :=
  match c with
  | Num x => x
  | Str s => str_to_float s
  end.

(** [pd.to_numeric(series, errors='coerce')] *)
Definition to_numeric (series : list Cell) : list float :=
  map to_numeric_scalar series.

(** Lines 62-66 and 68-72: the optional value of the first record. *)
Definition first_numeric (person_df : DataFrame) (name : string) : M (option float) :=
  if has_column person_df name then
    col <- getitem person_df name ;;
    c <- iloc0 col ;;
    let val := to_numeric_scalar c in
    ret (if PrimFloat.is_nan val then None else Some val)
  else ret None.

(** Lines 92-102: the period-length feature of the example at offset [i]. *)
Definition period_feature (period_lengths : option (list float))
    (i sequence_length : nat) : float :=
  match period_lengths with
  | Some pl =>
      if i + sequence_length <? List.length pl then
        let prev_periods := np.slice pl i (i + sequence_length) in
        let valid_periods := filter valid_period prev_periods in
        if 0 <? List.length valid_periods then np.mean valid_periods
        else 5%float
      else 5%float
  | None => 5%float
  end.

(** Lines 76-108: one turn of the loop; [continue] leaves the state as it
    was. *)
Definition window_step (cycle_lengths : list float)
    (period_lengths : option (list float)) (age bmi : option float)
    (sequence_length : nat) (acc : Samples) (i : nat) : M Samples :=
  let prev_cycles := np.slice cycle_lengths i (i + sequence_length) in
  target <- np.item cycle_lengths (i + sequence_length) ;;
  if out_of_range target then ret acc
  else if existsb out_of_range prev_cycles then ret acc
  else
    let features := prev_cycles in
    let features := features ++ [np.mean prev_cycles] in
    let features := features ++ [np.std prev_cycles] in
    lo <- np.min prev_cycles ;;
    let features := features ++ [lo] in
    hi <- np.max prev_cycles ;;
    let features := features ++ [hi] in
    let features := features ++ [period_feature period_lengths i sequence_length] in
    let features := features ++ [match age with Some a => a | None => 30%float end] in
    let features := features ++ [match bmi with Some b => b | None => 22%float end] in
    ret (fst acc ++ [features], snd acc ++ [target]).

Definition prepare_features_per_person (person_df : DataFrame)
    (sequence_length : nat) : M Samples :=
  col <- getitem person_df "LengthofCycle" ;;
  let cycle_lengths := dropna (to_numeric col) in
  if List.length cycle_lengths <? sequence_length + 1 then ret ([], [])
  else
    period_lengths <-
      (if has_column person_df "LengthofMenses" then
         pcol <- getitem person_df "LengthofMenses" ;;
         ret (Some (dropna (to_numeric pcol)))
       else ret None) ;;
    age <- first_numeric person_df "Age" ;;
    bmi <- first_numeric person_df "BMI" ;;
    for_each (range (List.length cycle_lengths - sequence_length))
      (window_step cycle_lengths period_lengths age bmi sequence_length)
      ([], []).

(** Lines 118-129: the identifier column. *)
Definition preferred_ids : list string :=
  ["ClientID"; "ID"; "Client"; "Person"; "Subject"].

Definition looks_like_id (col : string) : bool :=
  contains "id" (lower col) || contains "client" (lower col).

Definition find_id_column (df : DataFrame) : option string :=
  match find (has_column df) preferred_ids with
  | Some col => Some col
  | None => find looks_like_id (columns df)
  end.

(** Lines 142-144: one person's records. *)
Definition person_frame (df : DataFrame) (id_column : string)
    (person_id : Cell) : DataFrame :=
  let person_df := select df (fun r => cell_eqb (r id_column) person_id) in
  if has_column person_df "CycleNumber" then sort_values person_df "CycleNumber"
  else person_df.

(** Lines 141-150: one turn of the loop over the persons. *)
Definition person_step (df : DataFrame) (id_column : string)
    (acc : Samples) (person_id : Cell) : M Samples :=
  let person_df := person_frame df id_column person_id in
  r <- prepare_features_per_person person_df SEQUENCE_LENGTH ;;
  if 0 <? List.length (fst r) then ret (fst acc ++ fst r, snd acc ++ snd r)
  else ret acc.

Definition prepare_dataset (df : DataFrame) : M Samples :=
  match find_id_column df with
  | None => prepare_features_per_person df SEQUENCE_LENGTH
  | Some id_column =>
      ids <- getitem df id_column ;;
      let unique_persons := unique ids in
      for_each unique_persons (person_step df id_column) ([], [])
  end.

End Script.

(** ** [main]: the run up to the training stage *)

(** How a run ends: [sys.exit(status)] after an error message, an exception
    nobody catches, or the end of [main]. *)
Inductive Outcome : Type :=
| SysExit (status : Z) (message : string)
| Uncaught (e : exn)
| Completed.


Section Main.

Variable str_to_float : string -> float.
Variable sort_values : DataFrame -> string -> DataFrame.

(** [os.path.exists(path)] *)
Variable path_exists : string -> bool.

(** [pd.read_csv(filepath, encoding='utf-8-sig')]: the table pandas makes
    of the file, or the exception it raises on a file it cannot read or
    parse. *)
Variable read_csv : string -> M DataFrame.

(** [train_test_split(X, y, test_size=..., random_state=RANDOM_STATE)]:
    the train part and the test part, or the exception scikit-learn
    raises. *)
Variable train_test_split : Samples -> float -> M (Samples * Samples).

(** Lines 246-309: scale, fit, evaluate and export, all of it library
    calls on the three partitions. *)
Variable train_and_export : Samples -> Samples -> Samples -> Outcome.

(** Lines 28-40, without the diagnostic prints. *)
Definition load_and_preprocess_data (filepath : string) : M DataFrame :=
  read_csv filepath.

(** Lines 228-309: the two splits of lines 234-239, then the rest. The
    test size 0.3 is the binary64 value nearest to it, as in Python. *)
Definition training_stage (X : list (list float)) (y : list float) : Outcome :=
  match train_test_split (X, y) 0x1.3333333333333p-2%float with
  | inl e => Uncaught e
  | inr (train, temp) =>
      match train_test_split temp 0.5%float with
      | inl e => Uncaught e
      | inr (val, test) => train_and_export train val test
      end
  end.

Definition main : Outcome :=
  if negb (path_exists DATASET_PATH) then
    SysExit 1 (String.append "Error: Dataset not found at " DATASET_PATH)
  else
    match load_and_preprocess_data DATASET_PATH with
    | inl e => Uncaught e
    | inr df =>
        match prepare_dataset str_to_float sort_values df with
        | inl e => Uncaught e
        | inr (X, y) =>
            if List.length X =? 0 then
              SysExit 1 "Error: No valid samples could be created from the dataset"
            else training_stage X y
        end
    end.

End Main.

(** ** Example tables *)

(** A record written as the list of its named cells; a name that is not
    listed reads as a missing number. *)
Definition record (cells : list (string * Cell)) : Row :=
  fun name =>
    match find (fun kv => String.eqb name (fst kv)) cells with
    | Some kv => snd kv
    | None => Num nan
    end.

(** A text-to-number conversion for the examples: unsigned decimal integers,
    [nan] for everything else. *)
Fixpoint digits_value (s : string) (acc : Z) : option Z :=
  match s with
  | EmptyString => Some acc
  | String c rest =>
      let n := nat_of_ascii c in
      if (48 <=? n) && (n <=? 57)
      then digits_value rest (10 * acc + Z.of_nat (n - 48))%Z
      else None
  end.

Definition demo_str_to_float (s : string) : float :=
  match s with
  | EmptyString => nan
  | _ =>
      match digits_value s 0%Z with
      | Some z => PrimFloat.of_uint63 (Uint63.of_Z z)
      | None => nan
      end
  end.

(** A sort for the examples: it reverses the rows. *)
Definition demo_sort_values (df : DataFrame) (by_column : string) : DataFrame :=
  mkDataFrame (columns df) (rev (rows df)).

(** Seven cycles and nothing else. *)
Definition cycles_only : DataFrame :=
  mkDataFrame ["LengthofCycle"]
    (map (fun v => record [("LengthofCycle", Num v)])
       [28; 30; 29; 27; 31; 28; 29]%float).

(** ** What the feature builder reads and what it makes of it

    The values the builder computes on its way, as functions of the table,
    and the example at one offset of the window, as the loop body builds it. *)

Section Readings.

Variable str_to_float : string -> float.

(** Line 51: the numeric cycle lengths, in record order. *)
Definition cycle_values (df : DataFrame) : list float :=
  dropna (to_numeric str_to_float (map (fun r => r "LengthofCycle") (rows df))).

(** Lines 57-59: the numeric menses lengths, when the column is there. *)
Definition period_values (df : DataFrame) : option (list float) :=
  if has_column df "LengthofMenses"
  then Some (dropna (to_numeric str_to_float
               (map (fun r => r "LengthofMenses") (rows df))))
  else None.

(** Lines 62-72: the first record's value under [name], when it is a
    number. *)
Definition first_value (df : DataFrame) (name : string) : option float :=
  if has_column df name then
    match rows df with
    | r :: _ =>
        let val := to_numeric_scalar str_to_float (r name) in
        if PrimFloat.is_nan val then None else Some val
    | [] => None
    end
  else None.

End Readings.

(** [15 <= v <= 60] *)
Definition in_range (v : float) : bool :=
  ((15 <=? v) && (v <=? 60))%float.

(** The window and the target at offset [i]. *)
Definition window_at (cycle_lengths : list float) (W i : nat) : list float :=
  np.slice cycle_lengths i (i + W).
Definition target_at (cycle_lengths : list float) (W i : nat) : float :=
  nth (i + W) cycle_lengths nan.

(** The offsets whose example passes both range tests of lines 80-83. *)
Definition passes (cycle_lengths : list float) (W i : nat) : bool :=
  negb (out_of_range (target_at cycle_lengths W i)) &&
  negb (existsb out_of_range (window_at cycle_lengths W i)).
Definition kept_offsets (cycle_lengths : list float) (W : nat) : list nat :=
  filter (passes cycle_lengths W) (range (List.length cycle_lengths - W)).

(** The reduction of a non-empty array by a binary operation. *)
Definition reduce (f : float -> float -> float) (a : list float) : float :=
  fold_left f (tl a) (hd nan a).

Definition or_default (v : option float) (d : float) : float :=
  match v with
  | Some x => x
  | None => d
  end.

(** The feature vector of lines 86-105 at offset [i]. *)
Definition features_at (cycle_lengths : list float)
    (period_lengths : option (list float)) (age bmi : option float)
    (W i : nat) : list float :=
  let w := window_at cycle_lengths W i in
  w ++ [np.mean w; np.std w; reduce np.minimum w; reduce np.maximum w;
        period_feature period_lengths i W;
        or_default age 30%float; or_default bmi 22%float].

(** The period-length feature as the specification words it: the mean of the
    valid menses lengths of the records at offsets [i .. i+W), the default
    when there is none. Compared with [period_feature] below. *)
Definition claimed_period_feature (str_to_float : string -> float)
    (df : DataFrame) (i W : nat) : float :=
  if has_column df "LengthofMenses" then
    let menses :=
      to_numeric str_to_float (map (fun r => r "LengthofMenses") (rows df)) in
    let valid := filter valid_period (np.slice menses i (i + W)) in
    if 0 <? List.length valid then np.mean valid else 5%float
  else 5%float.

(** A person has no usable menses data when the column is missing or none of
    its numbers is a valid period length. *)
Definition no_usable_menses (str_to_float : string -> float) (df : DataFrame) : Prop :=
  match period_values str_to_float df with
  | Some menses => Forall (fun p => valid_period p = false) menses
  | None => True
  end.

Definition seven_cycles : list float := [28; 30; 29; 27; 31; 28; 29]%float.

(** Eight cycles; the menses length is blank in the first record, 4 days in
    the next five and 12 days in the last two. *)
Definition menses_shifted : DataFrame :=
  mkDataFrame ["LengthofCycle"; "LengthofMenses"]
    (map (fun vm => record [("LengthofCycle", Num (fst vm));
                            ("LengthofMenses", snd vm)])
       [(28%float, Str " "); (30%float, Num 4); (29%float, Num 4);
        (27%float, Num 4); (31%float, Num 4); (28%float, Num 4);
        (29%float, Num 12); (30%float, Num 12)]).

(** Seven cycles with their menses lengths, an age and a BMI. *)
Definition full_records : DataFrame :=
  mkDataFrame ["LengthofCycle"; "LengthofMenses"; "Age"; "BMI"]
    (map (fun vm => record [("LengthofCycle", Num (fst vm));
                            ("LengthofMenses", Num (snd vm));
                            ("Age", Str "36"); ("BMI", Num 21.5)])
       [(28, 5); (30, 4); (29, 5); (70, 5); (31, 6); (28, 5); (29, 5);
        (27, 4); (30, 5); (29, 20); (28, 5); (31, 5); (29, 4); (28, 5)]%float).

(** Three numeric cycle lengths among five records. *)
Definition three_cycles : DataFrame :=
  mkDataFrame ["LengthofCycle"; "Age"]
    (map (fun c => record [("LengthofCycle", c); ("Age", Num 30)])
       [Num 28; Str "n/a"; Num 30; Num nan; Str "29"]).

(** Seven records in reverse cycle order, with no identifier column. *)
Definition unsorted_single : DataFrame :=
  mkDataFrame ["CycleNumber"; "LengthofCycle"]
    (map (fun nv => record [("CycleNumber", Num (fst nv));
                            ("LengthofCycle", Num (snd nv))])
       [(7, 28); (6, 30); (5, 29); (4, 27); (3, 31); (2, 28); (1, 35)]%float).

(** Two persons, found through the preferred name [ClientID]. *)
Definition two_clients : DataFrame :=
  mkDataFrame ["ClientID"; "PatientId"; "CycleNumber"; "LengthofCycle"]
    (map (fun inv => record [("ClientID", Str (fst (fst inv)));
                             ("PatientId", Num 1);
                             ("CycleNumber", Num (snd (fst inv)));
                             ("LengthofCycle", Num (snd inv))])
       [("nfp8122", 7, 28); ("nfp8122", 6, 30); ("nfp8122", 5, 29);
        ("nfp8122", 4, 27); ("nfp8122", 3, 31); ("nfp8122", 2, 28);
        ("nfp8122", 1, 35); ("nfp8114", 1, 26)]%float).


(** A table with an identifier and no cycle-length column. *)
Definition no_cycle_column : DataFrame :=
  mkDataFrame ["ClientID"; "Age"]
    [record [("ClientID", Str "nfp8122"); ("Age", Num 36)]].







(** Nine cycle lengths inside the range, one of them read as text. *)
Definition nine_cycles : DataFrame :=
  mkDataFrame ["LengthofCycle"]
    (map (fun c => record [("LengthofCycle", c)])
       [Num 28; Num 30; Str "29"; Num 27; Num 31; Num 28; Num 29; Num 15;
        Num 60]).

(** Seven cycles; menses lengths blank or out of (0, 15), age and BMI not
    numbers. *)
Definition seven_without_optional : DataFrame :=
  mkDataFrame ["LengthofCycle"; "LengthofMenses"; "Age"; "BMI"]
    (map (fun vm => record [("LengthofCycle", Num (fst vm));
                            ("LengthofMenses", snd vm);
                            ("Age", Str "unknown"); ("BMI", Num nan)])
       [(28%float, Str " "); (30%float, Num 0); (29%float, Num 15);
        (27%float, Str " "); (31%float, Num 20); (28%float, Num (-3));
        (29%float, Str " ")]).

(** What a call returned, the empty samples when it raised. *)
Definition returned (m : M Samples) : Samples :=
  match m with
  | inr s => s
  | inl _ => ([], [])
  end.

(** Thirteen raw features. *)
Definition raw_features : list R :=
  [28; 30; 29; 27; 31; 28; 29; 1; 27; 31; 5; 30; 22]%R.

(** ** Standardization (lines 247-250 of [main]), over the real numbers *)

Module Standardization.

Local Open Scope R_scope.

(** The fitted parameters, [scaler.mean_] and [scaler.scale_]. *)
Record Scaler : Type := mkScaler {
  mean_ : list R;
  scale_ : list R
}.

(** Modelled from the spec: scikit-learn's [StandardScaler.transform] on
    one row, which is library code outside this repository; the
    specification gives its formula, [(x - mean) / scale], feature by
    feature. *)
Fixpoint standardize (mean scale x : list R) : list R :=
  match mean, scale, x with
  | m :: mean', s :: scale', v :: x' =>
      (v - m) / s :: standardize mean' scale' x'
  | _, _, _ => []
  end.

(** Modelled from the spec: the inverse map the specification names,
    [x * scale + mean]. *)
Fixpoint unstandardize (mean scale z : list R) : list R :=
  match mean, scale, z with
  | m :: mean', s :: scale', v :: z' =>
      v * s + m :: unstandardize mean' scale' z'
  | _, _, _ => []
  end.

(** [scaler.transform(X)]: every row through the same map. *)
Definition transform (scaler : Scaler) (X : list (list R)) : list (list R) :=
  map (standardize (mean_ scaler) (scale_ scaler)) X.

Section Scaling.

(** [StandardScaler().fit]: the parameters computed from the rows it is
    given. *)
Variable fit : list (list R) -> Scaler.

(** Lines 247-250: [fit_transform] on the training partition, then
    [transform] on the other two. *)
Definition scale_partitions (X_train X_val X_test : list (list R))
  : Scaler * list (list R) * list (list R) * list (list R) :=
  let scaler := fit X_train in
  let X_train_scaled := transform scaler X_train in
  let X_val_scaled := transform scaler X_val in
  let X_test_scaled := transform scaler X_test in
  (scaler, X_train_scaled, X_val_scaled, X_test_scaled).

End Scaling.

(** A fit for the examples: the same parameters whatever the rows. *)
Definition demo_fit (X : list (list R)) : Scaler :=
  mkScaler (repeat 29 13) (repeat 2 13).

End Standardization.

(** ** Samples fit for training *)

(** As many targets as feature vectors, 13 features in each vector, every
    target inside [15, 60]. *)
Definition valid_samples (s : Samples) : Prop :=
  List.length (fst s) = List.length (snd s) /\
  Forall (fun features => List.length features = 13) (fst s) /\
  Forall (fun target => in_range target = true) (snd s).

(** A missing identifier: the [nan] of an empty cell. *)
Definition missing (c : Cell) : bool :=
  match c with
  | Num x => PrimFloat.is_nan x
  | Str _ => false
  end.


(** ** The exporter *)

#[local] Set Warnings "-register-all".

(** What [json.dump] is given: numbers, text, lists and dictionaries whose
    keys keep their order. *)
Inductive Json : Type :=
| JInt (n : Z)
| JFloat (x : float)
| JStr (s : string)
| JList (items : list Json)
| JDict (members : list (string * Json)).

(** The fitted scikit-learn objects, as far as the exporter reads them. *)
Module sk.

Record MLPRegressor : Type := mkMLPRegressor {
coefs_ : list (list (list float));
intercepts_ : list (list float);
n_features_in_ : Z;
hidden_layer_sizes : list Z;
activation : string
}.

Record StandardScaler : Type := mkStandardScaler {
mean_ : list float;
scale_ : list float
}.

End sk.

(** [array.tolist()] of a vector and of a matrix. *)
Definition tolist1 (a : list float) : Json := JList (map JFloat a).
Definition tolist2 (a : list (list float)) : Json := JList (map tolist1 a).

(** Lines 160-165: the loop over [zip(model.coefs_, model.intercepts_)]. *)
Definition export_layers (model : sk.MLPRegressor) : list Json * list Json :=
  fold_left
    (fun acc layer =>
       (fst acc ++ [tolist2 (fst layer)], snd acc ++ [tolist1 (snd layer)]))
    (combine (sk.coefs_ model) (sk.intercepts_ model))
    ([], []).

(** Lines 168-177 *)
Definition model_config (model : sk.MLPRegressor) : Json :=
  let (weights, biases) := export_layers model in
  JDict [("architecture",
          JDict [("input_size", JInt (sk.n_features_in_ model));
                 ("hidden_layers", JList (map JInt (sk.hidden_layer_sizes model)));
                 ("output_size", JInt 1);
                 ("activation", JStr (sk.activation model))]);
         ("weights", JList weights);
         ("biases", JList biases)].

Definition feature_names : list string :=
  ["cycle_1"; "cycle_2"; "cycle_3"; "cycle_4"; "cycle_5"; "cycle_6";
   "mean"; "std"; "min"; "max";
   "period_length"; "age"; "bmi"].

(** Lines 185-193 *)
Definition scaler_params (scaler : sk.StandardScaler) : Json :=
  JDict [("mean", tolist1 (sk.mean_ scaler));
         ("scale", tolist1 (sk.scale_ scaler));
         ("feature_names", JList (map JStr feature_names))].

(** ** More example tables *)

(** Ten records, eight of them with a numeric cycle length. *)
Definition cycles_with_gaps : DataFrame :=
  mkDataFrame ["LengthofCycle"]
    (map (fun c => record [("LengthofCycle", c)])
       [Num 28; Str "n/a"; Num 30; Num 29; Num nan; Num 27; Num 31; Num 28;
        Num 29; Num 30]).

(** Seven cycles; the age is text in the first record and 36 after it. *)
Definition age_missing_first : DataFrame :=
  mkDataFrame ["LengthofCycle"; "Age"; "BMI"]
    (map (fun va => record [("LengthofCycle", Num (fst va)); ("Age", snd va);
                            ("BMI", Num 21.5)])
       [(28%float, Str "unknown"); (30%float, Num 36); (29%float, Num 36);
        (27%float, Num 36); (31%float, Num 36); (28%float, Num 36);
        (29%float, Num 36)]).

(** One person, seven cycles, no sequence numbers. *)
Definition one_client : DataFrame :=
  mkDataFrame ["ClientID"; "LengthofCycle"]
    (map (fun v => record [("ClientID", Str "nfp8122"); ("LengthofCycle", Num v)])
       [28; 30; 29; 27; 31; 28; 29]%float).

(** One person with seven cycles, and two records without an identifier. *)
Definition clients_with_gap : DataFrame :=
  mkDataFrame ["ClientID"; "CycleNumber"; "LengthofCycle"]
    (map (fun inv => record [("ClientID", fst (fst inv));
                             ("CycleNumber", Num (snd (fst inv)));
                             ("LengthofCycle", Num (snd inv))])
       [(Str "nfp8122", 7, 28); (Num nan, 1, 40); (Str "nfp8122", 6, 30);
        (Str "nfp8122", 5, 29); (Str "nfp8122", 4, 27); (Num nan, 2, 41);
        (Str "nfp8122", 3, 31); (Str "nfp8122", 2, 28);
        (Str "nfp8122", 1, 35)]%float).

(** * Properties *)

(** ** IEEE comparisons *)

Lemma Prim2SF_not_nan (x : float) :
  PrimFloat.is_nan x = false -> Prim2SF x <> S754_nan.
Proof.
  intros H. unfold Prim2SF. rewrite H.
  destruct (is_zero x); [discriminate|].
  destruct (is_infinity x); [discriminate|].
  destruct (Z.frexp x) as [r e].
  destruct (shr_fexp _ _ _ _ _) as [shr e'].
  destruct (shr_m shr); discriminate.
Qed.

Lemma SFcompare_total (a b : spec_float) :
  a <> S754_nan -> b <> S754_nan -> exists c, SFcompare a b = Some c.
Proof.
  intros Ha Hb. destruct a, b; simpl; try congruence; eauto.
Qed.

Lemma SFcompare_antisym (a b : spec_float) (c : comparison) :
  SFcompare a b = Some c -> SFcompare b a = Some (CompOpp c).
Proof.
  destruct a as [s| s | | s m e], b as [s'|s'| |s' m' e']; simpl; try discriminate;
    intros H; injection H as <-; f_equal;
    try (destruct s; reflexivity); try (destruct s'; reflexivity);
    try (destruct s, s'; reflexivity).
  rewrite (Z.compare_antisym e e').
  change (PosDef.Pos.compare_cont Eq m' m) with (Pos.compare m' m).
  change (PosDef.Pos.compare_cont Eq m m') with (Pos.compare m m').
  rewrite (Pos.compare_antisym m m').
  destruct s, s'; try reflexivity;
    destruct (e ?= e')%Z; simpl; try reflexivity;
    destruct (m ?= m')%positive; reflexivity.
Qed.

Lemma ltb_false_leb (x y : float) :
  PrimFloat.is_nan x = false -> PrimFloat.is_nan y = false ->
  (x <? y)%float = false -> (y <=? x)%float = true.
Proof.
  intros Hx Hy. rewrite ltb_spec, leb_spec. unfold SFltb, SFleb.
  destruct (SFcompare_total _ _ (Prim2SF_not_nan x Hx) (Prim2SF_not_nan y Hy)) as [c Hc].
  rewrite Hc, (SFcompare_antisym _ _ _ Hc).
  destruct c; simpl; congruence.
Qed.

Lemma leb_true_ltb (x y : float) :
  (x <=? y)%float = true -> (y <? x)%float = false.
Proof.
  rewrite ltb_spec, leb_spec. unfold SFltb, SFleb.
  destruct (SFcompare (Prim2SF x) (Prim2SF y)) as [c|] eqn:Hc; [|discriminate].
  rewrite (SFcompare_antisym _ _ _ Hc).
  destruct c; simpl; congruence.
Qed.

(** Inside the range, neither test of line 80 fires. *)
Lemma in_range_not_out (v : float) :
  in_range v = true -> out_of_range v = false.
Proof.
  unfold in_range, out_of_range. intros H.
  apply andb_true_iff in H as [H1 H2].
  now rewrite (leb_true_ltb _ _ H1), (leb_true_ltb _ _ H2).
Qed.

(** For a number, failing both tests of line 80 is being inside the range. *)
Lemma not_out_in_range (v : float) :
  PrimFloat.is_nan v = false -> out_of_range v = false -> in_range v = true.
Proof.
  unfold in_range, out_of_range. intros Hv H.
  apply orb_false_iff in H as [H1 H2].
  rewrite (ltb_false_leb v 15 Hv eq_refl H1), (ltb_false_leb 60 v eq_refl Hv H2).
  reflexivity.
Qed.

Lemma dropna_not_nan (series : list float) (v : float) :
  In v (dropna series) -> PrimFloat.is_nan v = false.
Proof.
  unfold dropna. intros H. apply filter_In in H as [_ H].
  now apply negb_true_iff in H.
Qed.

(** ** The sliding-window loop *)

Lemma slice_length {A : Type} (a : list A) (i W : nat) :
  i + W <= List.length a -> List.length (np.slice a i (i + W)) = W.
Proof.
  intros H. unfold np.slice. rewrite length_firstn, length_skipn. lia.
Qed.

Lemma item_in_range {A : Type} (a : list A) (i : nat) (d : A) :
  i < List.length a -> np.item a i = inr (nth i a d).
Proof.
  intros H. unfold np.item. now rewrite (nth_error_nth' a d H).
Qed.

Lemma min_reduce (a : list float) :
  a <> [] -> np.min a = inr (reduce np.minimum a).
Proof. destruct a; [congruence | reflexivity]. Qed.

Lemma max_reduce (a : list float) :
  a <> [] -> np.max a = inr (reduce np.maximum a).
Proof. destruct a; [congruence | reflexivity]. Qed.

Section Loop.

Variables (cycle_lengths : list float) (period_lengths : option (list float)).
Variables (age bmi : option float) (W : nat).
Hypothesis W_pos : 1 <= W.

Let step := window_step cycle_lengths period_lengths age bmi W.
Let feat := features_at cycle_lengths period_lengths age bmi W.
Let targ := target_at cycle_lengths W.
Let pass := passes cycle_lengths W.

(** One turn at an offset the loop visits: the example is appended when it
    passes, the state is untouched when it does not. *)
Lemma window_step_spec (acc : Samples) (i : nat) :
  i + W < List.length cycle_lengths ->
  step acc i =
    inr (if pass i then (fst acc ++ [feat i], snd acc ++ [targ i]) else acc).
Proof.
  intros Hi. unfold step, window_step, pass, passes, feat, features_at, targ.
  rewrite (item_in_range cycle_lengths (i + W) nan Hi). cbn [bind].
  fold (target_at cycle_lengths W i). fold (window_at cycle_lengths W i).
  destruct (out_of_range (target_at cycle_lengths W i)); [reflexivity|].
  destruct (existsb out_of_range (window_at cycle_lengths W i)); [reflexivity|].
  assert (Hw : window_at cycle_lengths W i <> []).
  { intros E. apply (f_equal (@List.length float)) in E.
    unfold window_at in E. rewrite slice_length in E by lia. simpl in E. lia. }
  rewrite (min_reduce _ Hw), (max_reduce _ Hw). cbn [bind negb andb].
  unfold ret, or_default. repeat rewrite <- app_assoc. reflexivity.
Qed.

Lemma loop_spec (n a : nat) (acc : Samples) :
  a + n + W <= List.length cycle_lengths ->
  for_each (seq a n) step acc =
    inr (fst acc ++ map feat (filter pass (seq a n)),
         snd acc ++ map targ (filter pass (seq a n))).
Proof.
  revert a acc. induction n as [|n IH]; intros a acc Hlen.
  - simpl. rewrite !app_nil_r. now destruct acc.
  - cbn [seq for_each]. rewrite window_step_spec by lia. cbn [bind].
    rewrite IH by lia. cbn [filter].
    destruct (pass a); cbn [fst snd map]; [|reflexivity].
    now rewrite <- !app_assoc.
Qed.

End Loop.

Section Builder.

Variable str_to_float : string -> float.

Local Abbreviation pfpp := (prepare_features_per_person str_to_float).

Lemma getitem_present (df : DataFrame) (name : string) :
  has_column df name = true ->
  getitem df name = inr (map (fun r => r name) (rows df)).
Proof. unfold getitem. now intros ->. Qed.

Lemma first_numeric_spec (df : DataFrame) (name : string) :
  rows df <> [] ->
  first_numeric str_to_float df name = inr (first_value str_to_float df name).
Proof.
  intros Hrows. unfold first_numeric, first_value.
  destruct (has_column df name) eqn:Hc; [|reflexivity].
  rewrite (getitem_present _ _ Hc). cbn [bind].
  destruct (rows df) as [|r rest]; [congruence|]. reflexivity.
Qed.

Lemma cycle_values_rows (df : DataFrame) :
  List.length (cycle_values str_to_float df) <= List.length (rows df).
Proof.
  unfold cycle_values, dropna, to_numeric.
  etransitivity; [apply filter_length_le|]. now rewrite !length_map.
Qed.

(** The builder on a table without the cycle-length column. *)
Lemma builder_key_error (df : DataFrame) (W : nat) :
  has_column df "LengthofCycle" = false ->
  pfpp df W = inl (KeyError "LengthofCycle").
Proof.
  intros H. unfold prepare_features_per_person, getitem. now rewrite H.
Qed.

(** The builder on a table with the cycle-length column: the examples at
    the kept offsets, in order. *)
Lemma builder_spec (df : DataFrame) (W : nat) :
  1 <= W ->
  has_column df "LengthofCycle" = true ->
  let cycles := cycle_values str_to_float df in
  let offsets := kept_offsets cycles W in
  pfpp df W =
    inr (map (features_at cycles (period_values str_to_float df)
                (first_value str_to_float df "Age")
                (first_value str_to_float df "BMI") W) offsets,
         map (target_at cycles W) offsets).
Proof.
  intros HW Hc cycles offsets.
  unfold prepare_features_per_person.
  rewrite (getitem_present _ _ Hc). cbn [bind].
  fold (cycle_values str_to_float df). fold cycles.
  destruct (Nat.ltb_spec (List.length cycles) (W + 1)) as [Hshort|Hlong].
  - unfold offsets, kept_offsets.
    replace (List.length cycles - W) with 0 by lia. reflexivity.
  - assert (Hrows : rows df <> []).
    { pose proof (cycle_values_rows df) as Hle. fold cycles in Hle.
      destruct (rows df); [simpl in Hle; lia | congruence]. }
    assert (Hp : (if has_column df "LengthofMenses"
                  then pcol <- getitem df "LengthofMenses" ;;
                       ret (Some (dropna (to_numeric str_to_float pcol)))
                  else ret None) = inr (period_values str_to_float df)).
    { unfold period_values.
      destruct (has_column df "LengthofMenses") eqn:Hm; [|reflexivity].
      now rewrite (getitem_present _ _ Hm). }
    rewrite Hp. cbn [bind].
    rewrite !(first_numeric_spec _ _ Hrows). cbn [bind].
    unfold range. rewrite loop_spec by lia. reflexivity.
Qed.

End Builder.

(** ** Windows over a person's cycle lengths *)

Lemma in_firstn {A : Type} (n : nat) (a : list A) (x : A) :
  In x (firstn n a) -> In x a.
Proof.
  intros H. rewrite <- (firstn_skipn n a). apply in_or_app. now left.
Qed.

Lemma in_skipn {A : Type} (n : nat) (a : list A) (x : A) :
  In x (skipn n a) -> In x a.
Proof.
  intros H. rewrite <- (firstn_skipn n a). apply in_or_app. now right.
Qed.

Lemma in_window (cycles : list float) (W i : nat) (v : float) :
  In v (window_at cycles W i) -> In v cycles.
Proof.
  unfold window_at, np.slice. intros H.
  eapply in_skipn, in_firstn, H.
Qed.

Lemma target_in (cycles : list float) (W i : nat) :
  i + W < List.length cycles -> In (target_at cycles W i) cycles.
Proof. intros H. now apply nth_In. Qed.

Lemma window_length (cycles : list float) (W i : nat) :
  i + W <= List.length cycles -> List.length (window_at cycles W i) = W.
Proof. apply slice_length. Qed.

(** The first [W] components of a feature vector are its window. *)
Lemma features_window (cycles : list float) (pl : option (list float))
    (age bmi : option float) (W i : nat) :
  i + W <= List.length cycles ->
  firstn W (features_at cycles pl age bmi W i) = window_at cycles W i.
Proof.
  intros H. unfold features_at. cbv zeta.
  rewrite firstn_app, (window_length _ _ _ H), Nat.sub_diag.
  cbn [firstn]. rewrite app_nil_r.
  rewrite <- (window_length _ _ _ H) at 1. apply firstn_all.
Qed.

Lemma features_length (cycles : list float) (pl : option (list float))
    (age bmi : option float) (W i : nat) :
  i + W <= List.length cycles ->
  List.length (features_at cycles pl age bmi W i) = W + 7.
Proof.
  intros H. unfold features_at. cbv zeta.
  rewrite length_app, (window_length _ _ _ H). reflexivity.
Qed.

(** On numbers, the two range tests of lines 80-83 keep an offset exactly
    when the target and the whole window are inside [15, 60]. *)
Lemma passes_in_range (cycles : list float) (W i : nat) :
  (forall v, In v cycles -> PrimFloat.is_nan v = false) ->
  i + W < List.length cycles ->
  passes cycles W i =
    in_range (target_at cycles W i) && forallb in_range (window_at cycles W i).
Proof.
  intros Hnum Hi. unfold passes. f_equal.
  - pose proof (Hnum _ (target_in cycles W i Hi)) as Hn.
    destruct (out_of_range (target_at cycles W i)) eqn:E; cbn [negb].
    + destruct (in_range (target_at cycles W i)) eqn:E'; [|reflexivity].
      apply in_range_not_out in E'. congruence.
    + symmetry. now apply not_out_in_range.
  - assert (Hw : forall v, In v (window_at cycles W i) -> PrimFloat.is_nan v = false)
      by (intros v Hv; eapply Hnum, in_window, Hv).
    induction (window_at cycles W i) as [|v w IH]; [reflexivity|].
    cbn [existsb forallb]. rewrite negb_orb, IH by (intros; apply Hw; now right).
    f_equal. pose proof (Hw v (or_introl eq_refl)) as Hn.
    destruct (out_of_range v) eqn:E; cbn [negb].
    + destruct (in_range v) eqn:E'; [|reflexivity].
      apply in_range_not_out in E'. congruence.
    + symmetry. now apply not_out_in_range.
Qed.

Lemma kept_offsets_bound (cycles : list float) (W i : nat) :
  In i (kept_offsets cycles W) -> i + W < List.length cycles.
Proof.
  unfold kept_offsets, range. intros H.
  apply filter_In in H as [H _]. apply in_seq in H. lia.
Qed.

Section Claims.

Variable str_to_float : string -> float.

Local Abbreviation pfpp := (prepare_features_per_person str_to_float).
Local Abbreviation cycles_of := (cycle_values str_to_float).

(** C4. A person whose records give fewer than [sequence_length + 1]
    numeric cycle lengths (fewer than 7 for the window of 6) gets no
    example: the builder returns the empty features and targets, and
    raises nothing. *)
Theorem too_few_cycles_no_examples (df : DataFrame) (W : nat) :
  has_column df "LengthofCycle" = true ->
  List.length (cycles_of df) < W + 1 ->
  pfpp df W = inr ([], []).
Proof.
  intros Hc Hshort. unfold prepare_features_per_person.
  rewrite (getitem_present _ _ Hc). cbn [bind].
  fold (cycle_values str_to_float df).
  apply Nat.ltb_lt in Hshort. now rewrite Hshort.
Qed.

(** C1. With [N >= 7] numeric cycle lengths, all inside [15, 60], the
    window of 6 gives exactly [N - 6] examples, one per offset
    [i = 0 .. N - 7]; example [i] has the window [cycles[i .. i+6)] as its
    first six features and the target [cycles[i+6]]. *)
Theorem all_in_range_window_count (df : DataFrame) :
  has_column df "LengthofCycle" = true ->
  7 <= List.length (cycles_of df) ->
  Forall (fun v => in_range v = true) (cycles_of df) ->
  exists X y,
    pfpp df 6 = inr (X, y) /\
    List.length X = List.length (cycles_of df) - 6 /\
    List.length y = List.length (cycles_of df) - 6 /\
    forall i, i < List.length (cycles_of df) - 6 ->
      exists features target,
        nth_error X i = Some features /\
        nth_error y i = Some target /\
        firstn 6 features = np.slice (cycles_of df) i (i + 6) /\
        nth_error (cycles_of df) (i + 6) = Some target.
Proof.
  intros Hc HN Hall. set (cycles := cycles_of df) in *.
  assert (Hkept : kept_offsets cycles 6 = range (List.length cycles - 6)).
  { unfold kept_offsets. apply forallb_filter_id, forallb_forall.
    intros i Hi. apply in_seq in Hi. rewrite Forall_forall in Hall.
    unfold passes. apply andb_true_iff; split; apply negb_true_iff.
    - apply in_range_not_out, Hall, target_in. lia.
    - destruct (existsb out_of_range (window_at cycles 6 i)) eqn:E; [|reflexivity].
      apply existsb_exists in E as (v & Hv & Hout).
      rewrite (in_range_not_out v) in Hout; [discriminate|].
      eapply Hall, in_window, Hv. }
  eexists _, _. split; [apply builder_spec; [lia | exact Hc]|].
  fold cycles. rewrite Hkept. unfold range.
  rewrite !length_map, length_seq. repeat split.
  intros i Hi.
  exists (features_at cycles (period_values str_to_float df)
            (first_value str_to_float df "Age")
            (first_value str_to_float df "BMI") 6 i), (target_at cycles 6 i).
  repeat split.
  - rewrite nth_error_map, nth_error_seq.
    apply Nat.ltb_lt in Hi. now rewrite Hi.
  - rewrite nth_error_map, nth_error_seq.
    apply Nat.ltb_lt in Hi. now rewrite Hi.
  - apply features_window. lia.
  - unfold target_at. apply nth_error_nth'. lia.
Qed.

(** When the builder returns, the table has the cycle-length column. *)
Lemma builder_returns_column (df : DataFrame) (W : nat) (s : Samples) :
  pfpp df W = inr s -> has_column df "LengthofCycle" = true.
Proof.
  intros H. destruct (has_column df "LengthofCycle") eqn:Hc; [reflexivity|].
  rewrite (builder_key_error str_to_float df W Hc) in H. discriminate.
Qed.

Lemma cycles_are_numbers (df : DataFrame) (v : float) :
  In v (cycles_of df) -> PrimFloat.is_nan v = false.
Proof. apply dropna_not_nan. Qed.

(** C2. The returned examples are the candidates whose target and whole
    window lie inside [15, 60], in offset order; the others are left out
    altogether. Windows and targets are the cycle lengths themselves,
    unchanged, so every returned target and every windowed value is inside
    [15, 60]. *)
Theorem examples_inside_range (df : DataFrame) (X : list (list float))
    (y : list float) :
  pfpp df 6 = inr (X, y) ->
  let cycles := cycles_of df in
  let offsets :=
    filter (fun i => in_range (target_at cycles 6 i) &&
                     forallb in_range (window_at cycles 6 i))
      (range (List.length cycles - 6)) in
  map (firstn 6) X = map (window_at cycles 6) offsets /\
  y = map (target_at cycles 6) offsets /\
  Forall (fun target => in_range target = true) y /\
  Forall (fun features => forallb in_range (firstn 6 features) = true) X.
Proof.
  intros H cycles offsets.
  pose proof (builder_returns_column _ _ _ H) as Hc.
  rewrite (builder_spec str_to_float df 6 ltac:(lia) Hc) in H.
  fold cycles in H.
  assert (Hoff : kept_offsets cycles 6 = offsets).
  { unfold kept_offsets, offsets. apply filter_ext_in. intros i Hi.
    apply in_seq in Hi. apply passes_in_range; [apply cycles_are_numbers | lia]. }
  rewrite Hoff in H. injection H as <- <-.
  assert (Hin : forall i, In i offsets ->
            i + 6 < List.length cycles /\
            in_range (target_at cycles 6 i) = true /\
            forallb in_range (window_at cycles 6 i) = true).
  { intros i Hi. unfold offsets in Hi. apply filter_In in Hi as [Hi Hp].
    apply in_seq in Hi. apply andb_true_iff in Hp. split; [lia | exact Hp]. }
  assert (Hwin : map (firstn 6)
            (map (features_at cycles (period_values str_to_float df)
                    (first_value str_to_float df "Age")
                    (first_value str_to_float df "BMI") 6) offsets)
          = map (window_at cycles 6) offsets).
  { rewrite map_map. apply map_ext_in. intros i Hi.
    apply features_window. destruct (Hin i Hi). lia. }
  repeat split.
  - exact Hwin.
  - apply Forall_forall. intros t Ht. apply in_map_iff in Ht as (i & <- & Hi).
    now destruct (Hin i Hi) as (_ & Ht & _).
  - apply Forall_forall. intros f Hf. apply in_map_iff in Hf as (i & <- & Hi).
    destruct (Hin i Hi) as (Hb & _ & Hw).
    rewrite features_window by lia. exact Hw.
Qed.

(** The two output lists grow together. *)
Lemma for_each_invariant {A S : Type} (P : S -> Prop) (body : S -> A -> M S) :
  (forall s x s', P s -> body s x = inr s' -> P s') ->
  forall xs s s', P s -> for_each xs body s = inr s' -> P s'.
Proof.
  intros Hbody. induction xs as [|x xs IH]; intros s s' Hs H.
  - injection H as <-. exact Hs.
  - cbn [for_each] in H. destruct (body s x) as [e|s1] eqn:E; [discriminate|].
    cbn [bind] in H. eapply IH; [|exact H]. eapply Hbody; eauto.
Qed.

Lemma window_step_parallel (cycles : list float) (pl : option (list float))
    (age bmi : option float) (W : nat) (acc : Samples) (i : nat)
    (acc' : Samples) :
  List.length (fst acc) = List.length (snd acc) ->
  window_step cycles pl age bmi W acc i = inr acc' ->
  List.length (fst acc') = List.length (snd acc').
Proof.
  intros Hacc. unfold window_step.
  destruct (np.item cycles (i + W)) as [e|target]; [discriminate|]. cbn [bind].
  destruct (out_of_range target); [now intros [= <-]|].
  destruct (existsb out_of_range _); [now intros [= <-]|].
  destruct (np.min _) as [e|lo]; [discriminate|]. cbn [bind].
  destruct (np.max _) as [e|hi]; [discriminate|]. cbn [bind].
  intros [= <-]. cbn [fst snd]. rewrite !length_app, Hacc. reflexivity.
Qed.

Lemma builder_parallel (df : DataFrame) (W : nat) (X : list (list float))
    (y : list float) :
  pfpp df W = inr (X, y) -> List.length X = List.length y.
Proof.
  unfold prepare_features_per_person.
  destruct (getitem df "LengthofCycle") as [e|col]; [discriminate|]. cbn [bind].
  destruct (_ <? _); [now intros [= <- <-]|].
  destruct (if has_column df "LengthofMenses" then _ else _) as [e|pl];
    [discriminate|]. cbn [bind].
  destruct (first_numeric str_to_float df "Age") as [e|age]; [discriminate|].
  destruct (first_numeric str_to_float df "BMI") as [e|bmi]; [discriminate|].
  cbn [bind]. intros H.
  refine (for_each_invariant
            (fun s : Samples => List.length (fst s) = List.length (snd s))
            _ (window_step_parallel _ pl age bmi W) _ ([], []) (X, y) _ H).
  reflexivity.
Qed.

(** C9. The features and the targets the builder returns are parallel
    (equally long), for every window length; with the window of 6 every
    feature vector has 13 components, in this order: the 6 window values,
    their mean, standard deviation, minimum and maximum, the period-length
    average, the age and the BMI. *)
Theorem samples_parallel_thirteen (df : DataFrame) (W : nat)
    (X : list (list float)) (y : list float) :
  pfpp df W = inr (X, y) ->
  List.length X = List.length y /\
  (W = 6 ->
   Forall (fun features =>
     List.length features = 13 /\
     exists i w lo hi,
       w = np.slice (cycles_of df) i (i + 6) /\ List.length w = 6 /\
       np.min w = inr lo /\ np.max w = inr hi /\
       features =
         w ++ [np.mean w; np.std w; lo; hi;
               period_feature (period_values str_to_float df) i 6;
               or_default (first_value str_to_float df "Age") 30%float;
               or_default (first_value str_to_float df "BMI") 22%float]) X).
Proof.
  intros H. split; [exact (builder_parallel _ _ _ _ H)|].
  intros ->. pose proof (builder_returns_column _ _ _ H) as Hc.
  rewrite (builder_spec str_to_float df 6 ltac:(lia) Hc) in H.
  injection H as <- _. apply Forall_forall. intros f Hf.
  apply in_map_iff in Hf as (i & <- & Hi).
  apply kept_offsets_bound in Hi.
  split; [rewrite features_length by lia; reflexivity|].
  set (w := window_at (cycles_of df) 6 i).
  assert (Hlen : List.length w = 6) by (apply window_length; lia).
  assert (Hw : w <> []) by (intros E; rewrite E in Hlen; discriminate).
  exists i, w, (reduce np.minimum w), (reduce np.maximum w).
  repeat split; auto using min_reduce, max_reduce.
Qed.

Lemma filter_none {A : Type} (f : A -> bool) (l : list A) :
  (forall x, In x l -> f x = false) -> filter f l = [].
Proof.
  induction l as [|x l IH]; intros H; [reflexivity|].
  cbn [filter]. rewrite (H x (or_introl eq_refl)).
  apply IH. intros; apply H; now right.
Qed.

Lemma period_feature_default (menses : option (list float)) (i W : nat) :
  match menses with
  | Some m => Forall (fun p => valid_period p = false) m
  | None => True
  end ->
  period_feature menses i W = 5%float.
Proof.
  destruct menses as [m|]; [|reflexivity]. intros Hm. unfold period_feature.
  destruct (i + W <? List.length m); [|reflexivity].
  rewrite filter_none; [reflexivity|].
  rewrite Forall_forall in Hm. intros p Hp. eapply Hm, in_skipn, in_firstn, Hp.
Qed.

(** C6. A person with the cycle lengths 28, 30, 29, 27, 31, 28, 29 and no
    usable age, BMI or menses data gets exactly one example: the window
    28, 30, 29, 27, 31, 28 with its statistics, the target 29, and the
    defaults 5.0, 30.0 and 22.0 for period length, age and BMI. *)
Theorem seven_cycles_one_example (df : DataFrame) :
  has_column df "LengthofCycle" = true ->
  cycles_of df = [28; 30; 29; 27; 31; 28; 29]%float ->
  no_usable_menses str_to_float df ->
  first_value str_to_float df "Age" = None ->
  first_value str_to_float df "BMI" = None ->
  let window := [28; 30; 29; 27; 31; 28]%float in
  pfpp df 6 =
    inr ([window ++ [np.mean window; np.std window; 27; 31; 5; 30; 22]%float],
         [29%float]).
Proof.
  intros Hc Hcycles Hmenses Hage Hbmi window.
  rewrite (builder_spec str_to_float df 6 ltac:(lia) Hc).
  rewrite Hcycles, Hage, Hbmi.
  change (kept_offsets [28; 30; 29; 27; 31; 28; 29]%float 6) with [0].
  cbn [map]. unfold features_at. cbv zeta.
  rewrite (period_feature_default _ 0 6 Hmenses).
  reflexivity.
Qed.

(** C3, as the code has it. In the example at the accepted offset [i], the
    eleventh feature is computed from the numeric menses lengths, the
    non-numeric ones removed before any indexing: when that sequence has
    more than [i + 6] entries and some of its entries [i .. i+6) is
    strictly between 0 and 15, it is the mean of those; otherwise, and
    when there is no menses column, it is 5.0. *)
Theorem period_feature_of_numeric_menses (df : DataFrame)
    (X : list (list float)) (y : list float) (k : nat) :
  pfpp df 6 = inr (X, y) ->
  k < List.length X ->
  exists i features,
    nth_error (kept_offsets (cycles_of df) 6) k = Some i /\
    nth_error X k = Some features /\
    nth_error features 10 =
      Some match period_values str_to_float df with
           | Some menses =>
               let valid := filter valid_period (np.slice menses i (i + 6)) in
               if (i + 6 <? List.length menses) && (0 <? List.length valid)
               then np.mean valid
               else 5%float
           | None => 5%float
           end.
Proof.
  intros H Hk. pose proof (builder_returns_column _ _ _ H) as Hc.
  rewrite (builder_spec str_to_float df 6 ltac:(lia) Hc) in H.
  injection H as <- _. rewrite length_map in Hk.
  destruct (nth_error (kept_offsets (cycles_of df) 6) k) as [i|] eqn:Ei;
    [|apply nth_error_None in Ei; lia].
  pose proof (kept_offsets_bound _ _ _ (nth_error_In _ _ Ei)) as Hi.
  eexists i, _. split; [reflexivity|].
  split; [rewrite nth_error_map, Ei; reflexivity|].
  unfold features_at. cbv zeta.
  rewrite nth_error_app2 by (rewrite window_length by lia; lia).
  rewrite window_length by lia. cbn [Nat.sub nth_error].
  f_equal. unfold period_feature.
  destruct (period_values str_to_float df) as [menses|]; [|reflexivity].
  cbv zeta. now destruct (i + 6 <? List.length menses).
Qed.

(** ** The identifier column *)



Lemma prefix_spec (needle haystack : string) :
  String.prefix needle haystack = true <->
  exists post, haystack = String.append needle post.
Proof.
  revert haystack. induction needle as [|a needle IH]; intros haystack.
  - destruct haystack; cbn; split; eauto.
  - destruct haystack as [|b haystack]; cbn.
    + split; [discriminate | intros [post H]; discriminate].
    + destruct (ascii_dec a b) as [->|Hab].
      * rewrite IH. split; intros [post H]; exists post; congruence.
      * split; [discriminate | intros [post H]; congruence].
Qed.

(** [contains] is the substring test. *)
Lemma contains_spec (needle haystack : string) :
  contains needle haystack = true <->
  exists pre post, haystack = String.append pre (String.append needle post).
Proof.
  induction haystack as [|b haystack IH].
  - cbn [contains]. rewrite orb_false_r, prefix_spec. split.
    + intros [post H]. now exists EmptyString, post.
    + intros (pre & post & H). destruct pre; [now exists post | discriminate].
  - cbn [contains]. rewrite orb_true_iff, prefix_spec, IH. split.
    + intros [[post H] | (pre & post & H)].
      * now exists EmptyString, post.
      * exists (String b pre), post. cbn. now rewrite H.
    + intros (pre & post & H). destruct pre as [|c pre].
      * left. now exists post.
      * right. exists pre, post. cbn in H. congruence.
Qed.

Variable sort_values : DataFrame -> string -> DataFrame.

Local Abbreviation dataset := (prepare_dataset str_to_float sort_values).


(** The column found is a column of the table. *)
Lemma find_id_column_is_column (df : DataFrame) (id_column : string) :
  find_id_column df = Some id_column -> has_column df id_column = true.
Proof.
  unfold find_id_column.
  destruct (find (has_column df) preferred_ids) as [col|] eqn:E.
  - intros [= <-]. now apply find_some in E.
  - intros H. apply find_some in H as [Hin _].
    unfold has_column. apply existsb_exists. exists id_column.
    split; [exact Hin | apply String.eqb_refl].
Qed.

(** C10. With no identifier column the feature builder gets the table as
    it was read, whatever [sort_values] would do and whether or not there
    is a [CycleNumber] column; the sort by [CycleNumber] is applied on the
    grouped path only, to each person's records. *)
Theorem single_entity_not_sorted (df : DataFrame) :
  (find_id_column df = None ->
   dataset df = pfpp df SEQUENCE_LENGTH) /\
  (forall id_column,
      find_id_column df = Some id_column ->
      dataset df =
        for_each (unique (map (fun r => r id_column) (rows df)))
          (fun acc person_id =>
             let person_df :=
               select df (fun r => cell_eqb (r id_column) person_id) in
             r <- pfpp (if has_column df "CycleNumber"
                        then sort_values person_df "CycleNumber"
                        else person_df) SEQUENCE_LENGTH ;;
             if 0 <? List.length (fst r)
             then ret (fst acc ++ fst r, snd acc ++ snd r)
             else ret acc)
          ([], [])).
Proof.
  split.
  - intros Hid. unfold prepare_dataset. now rewrite Hid.
  - intros id_column Hid. unfold prepare_dataset.
    rewrite Hid, (getitem_present _ _ (find_id_column_is_column _ _ Hid)).
    reflexivity.
Qed.

(** ** The run *)

Section Run.

(** Sorting the rows leaves the columns as they are. *)
Hypothesis sort_keeps_columns :
  forall df by_column, columns (sort_values df by_column) = columns df.

Variable path_exists : string -> bool.
Variable read_csv : string -> M DataFrame.
Variable train_test_split : Samples -> float -> M (Samples * Samples).
Variable train_and_export : Samples -> Samples -> Samples -> Outcome.

Local Abbreviation run :=
  (main str_to_float sort_values path_exists read_csv train_test_split
     train_and_export).
Local Abbreviation training :=
  (training_stage train_test_split train_and_export).









End Run.

End Claims.

(** ** Standardization *)

Section ScalingFacts.

Import Standardization.
Local Open Scope R_scope.

Lemma round_trip (mean scale x : list R) :
  List.length mean = List.length x ->
  List.length scale = List.length x ->
  Forall (fun s => s <> 0) scale ->
  unstandardize mean scale (standardize mean scale x) = x.
Proof.
  revert mean scale.
  induction x as [|v x IH]; intros [|m mean] [|s scale] Hm Hs Hnz;
    try discriminate; [reflexivity|].
  cbn [standardize unstandardize]. inversion Hnz as [|? ? Hs0 Hrest]; subst.
  f_equal; [now field | apply IH; auto].
Qed.

Lemma standardize_nth (mean scale x : list R) (j : nat) :
  (j < List.length x)%nat ->
  List.length mean = List.length x ->
  List.length scale = List.length x ->
  nth j (standardize mean scale x) 0 =
    (nth j x 0 - nth j mean 0) / nth j scale 0.
Proof.
  revert mean scale j.
  induction x as [|v x IH]; intros [|m mean] [|s scale] j Hj Hm Hs;
    try discriminate; [cbn in Hj; lia|].
  destruct j as [|j]; [reflexivity|].
  cbn [standardize nth]. apply IH; cbn in *; lia.
Qed.

Variable fit : list (list R) -> Scaler.

(** What scikit-learn's fit returns here: one mean and one scale for each
    of the 13 features, no scale being zero (a zero standard deviation is
    replaced by 1). *)
Hypothesis fit_thirteen :
  forall X, List.length (mean_ (fit X)) = 13%nat /\
            List.length (scale_ (fit X)) = 13%nat.
Hypothesis fit_scale_nonzero :
  forall X, Forall (fun s => s <> 0) (scale_ (fit X)).

(** C8. The scaler is fitted on the training partition alone, and the
    three partitions go through the same map, [(x - mean) / scale] on
    every feature; on any vector of 13 raw features that map followed by
    [x * scale + mean] gives the vector back, exactly, over the real
    numbers. *)
Theorem standardization_round_trip (X_train X_val X_test : list (list R)) :
  let scaler := fit X_train in
  let z := standardize (mean_ scaler) (scale_ scaler) in
  scale_partitions fit X_train X_val X_test =
    (scaler, map z X_train, map z X_val, map z X_test) /\
  forall x, List.length x = 13%nat ->
    (forall j, (j < 13)%nat ->
       nth j (z x) 0 =
         (nth j x 0 - nth j (mean_ scaler) 0) / nth j (scale_ scaler) 0) /\
    unstandardize (mean_ scaler) (scale_ scaler) (z x) = x.
Proof.
  intros scaler z. split; [reflexivity|].
  intros x Hx. destruct (fit_thirteen X_train) as [Hm Hs].
  fold scaler in Hm, Hs. split.
  - intros j Hj. apply standardize_nth; congruence.
  - apply round_trip; [congruence | congruence | apply fit_scale_nonzero].
Qed.

End ScalingFacts.

(** ** The theorems at concrete tables *)

Lemma too_few_cycles_no_examples_witness :
  List.length (cycle_values demo_str_to_float three_cycles) = 3 /\
  prepare_features_per_person demo_str_to_float three_cycles 6 = inr ([], []).
Proof.
  split; [reflexivity|].
  apply (too_few_cycles_no_examples demo_str_to_float three_cycles 6).
  - reflexivity.
  - vm_compute. lia.
Defined.

Lemma all_in_range_window_count_witness :
  exists X y,
    prepare_features_per_person demo_str_to_float nine_cycles 6 = inr (X, y) /\
    List.length X = 3 /\ List.length y = 3.
Proof.
  destruct (all_in_range_window_count demo_str_to_float nine_cycles)
    as (X & y & H & HX & Hy & _).
  - reflexivity.
  - vm_compute. lia.
  - vm_compute. repeat (constructor; try reflexivity).
  - exists X, y. split; [exact H|]. split; [exact HX | exact Hy].
Defined.

Lemma examples_inside_range_witness :
  snd (returned (prepare_features_per_person demo_str_to_float full_records 6))
    = [28; 31; 29; 28]%float /\
  Forall (fun target => in_range target = true)
    (snd (returned (prepare_features_per_person demo_str_to_float full_records 6))).
Proof.
  split; [vm_compute; reflexivity|].
  pose proof (examples_inside_range demo_str_to_float full_records
    (fst (returned (prepare_features_per_person demo_str_to_float full_records 6)))
    (snd (returned (prepare_features_per_person demo_str_to_float full_records 6))))
    as Hw.
  cbv zeta in Hw. destruct Hw as (_ & _ & Ht & _); [vm_compute; reflexivity|].
  exact Ht.
Defined.

Lemma samples_parallel_thirteen_witness :
  List.length
    (fst (returned (prepare_features_per_person demo_str_to_float full_records 6)))
  = List.length
    (snd (returned (prepare_features_per_person demo_str_to_float full_records 6))).
Proof.
  destruct (samples_parallel_thirteen demo_str_to_float full_records 6
    (fst (returned (prepare_features_per_person demo_str_to_float full_records 6)))
    (snd (returned (prepare_features_per_person demo_str_to_float full_records 6))))
    as [Hlen _]; [vm_compute; reflexivity|].
  exact Hlen.
Defined.

Lemma seven_cycles_one_example_witness :
  prepare_features_per_person demo_str_to_float seven_without_optional 6 =
    inr ([[28; 30; 29; 27; 31; 28] ++
          [np.mean [28; 30; 29; 27; 31; 28]; np.std [28; 30; 29; 27; 31; 28];
           27; 31; 5; 30; 22]]%float,
         [29%float]).
Proof.
  apply (seven_cycles_one_example demo_str_to_float seven_without_optional).
  - reflexivity.
  - vm_compute. reflexivity.
  - vm_compute. repeat (constructor; try reflexivity).
  - vm_compute. reflexivity.
  - vm_compute. reflexivity.
Defined.

Lemma period_feature_of_numeric_menses_witness :
  exists features,
    nth_error
      (fst (returned (prepare_features_per_person demo_str_to_float full_records 6)))
      1 = Some features /\
    nth_error features 10 = Some (24 / 5)%float.
Proof.
  destruct (period_feature_of_numeric_menses demo_str_to_float full_records
    (fst (returned (prepare_features_per_person demo_str_to_float full_records 6)))
    (snd (returned (prepare_features_per_person demo_str_to_float full_records 6)))
    1) as (i & features & Hi & Hf & H10).
  - vm_compute. reflexivity.
  - vm_compute. lia.
  - exists features. split; [exact Hf|].
    vm_compute in Hi. injection Hi as <-. rewrite H10. vm_compute. reflexivity.
Defined.

(** C3, as the specification words it, fails on this table at both
    offsets. At offset 0 the records hold a blank and five menses lengths of
    4 days, mean 4, but the builder averages the first six numeric menses
    lengths, 4, 4, 4, 4, 4, 12. At offset 1 the records hold those six
    values, but the numeric menses sequence has only seven entries and the
    builder falls back to 5.0. *)
Lemma period_feature_counterexample :
  exists features0 features1 y,
    prepare_features_per_person demo_str_to_float menses_shifted 6
      = inr ([features0; features1], y) /\
    nth_error features0 10 = Some (32 / 6)%float /\
    claimed_period_feature demo_str_to_float menses_shifted 0 6 = 4%float /\
    nth_error features1 10 = Some 5%float /\
    claimed_period_feature demo_str_to_float menses_shifted 1 6 = (32 / 6)%float /\
    nth 10 features0 nan
      <> claimed_period_feature demo_str_to_float menses_shifted 0 6 /\
    nth 10 features1 nan
      <> claimed_period_feature demo_str_to_float menses_shifted 1 6.
Proof.
  exists (nth 0 (fst (returned (prepare_features_per_person demo_str_to_float
                                  menses_shifted 6))) []),
         (nth 1 (fst (returned (prepare_features_per_person demo_str_to_float
                                  menses_shifted 6))) []),
         [29; 30]%float.
  repeat split; try (vm_compute; reflexivity).
  - intros E. apply (f_equal (fun v => (v =? 4)%float)) in E.
    vm_compute in E. discriminate.
  - intros E. apply (f_equal (fun v => (v =? 5)%float)) in E.
    vm_compute in E. discriminate.
Qed.


Lemma single_entity_not_sorted_witness :
  has_column unsorted_single "CycleNumber" = true /\
  prepare_dataset demo_str_to_float demo_sort_values unsorted_single =
    prepare_features_per_person demo_str_to_float unsorted_single SEQUENCE_LENGTH /\
  snd (returned (prepare_dataset demo_str_to_float demo_sort_values unsorted_single))
    = [35%float] /\
  snd (returned (prepare_features_per_person demo_str_to_float
                   (demo_sort_values unsorted_single "CycleNumber") SEQUENCE_LENGTH))
    = [28%float].
Proof.
  split; [reflexivity|]. split; [|split; vm_compute; reflexivity].
  apply (proj1 (single_entity_not_sorted demo_str_to_float demo_sort_values
                  unsorted_single)).
  reflexivity.
Defined.



Lemma standardization_round_trip_witness :
  Standardization.unstandardize (repeat 29%R 13) (repeat 2%R 13)
    (Standardization.standardize (repeat 29%R 13) (repeat 2%R 13) raw_features)
  = raw_features.
Proof.
  refine (proj2 (proj2 (standardization_round_trip Standardization.demo_fit _ _
                          [] [] []) raw_features eq_refl)).
  - intros X. split; reflexivity.
  - intros X. cbn. repeat constructor; lra.
Defined.

(** * Further properties of the script *)

(** ** The order of the floats *)

Lemma SFleb_trans (a b c : spec_float) :
  SFleb a b = true -> SFleb b c = true -> SFleb a c = true.
Proof.
  unfold SFleb.
  destruct a as [s1|s1| |s1 m1 e1], b as [s2|s2| |s2 m2 e2], c as [s3|s3| |s3 m3 e3];
    cbn [SFcompare]; try discriminate; try reflexivity;
    try (destruct s1, s2, s3; cbn; congruence).
  change (PosDef.Pos.compare_cont Eq m1 m2) with (Pos.compare m1 m2).
  change (PosDef.Pos.compare_cont Eq m2 m3) with (Pos.compare m2 m3).
  change (PosDef.Pos.compare_cont Eq m1 m3) with (Pos.compare m1 m3).
  destruct s1, s2, s3; try discriminate; try reflexivity;
    destruct (Z.compare_spec e1 e2), (Z.compare_spec e2 e3), (Z.compare_spec e1 e3);
    try discriminate; try reflexivity; try lia; subst;
    destruct (Pos.compare_spec m1 m2), (Pos.compare_spec m2 m3), (Pos.compare_spec m1 m3);
    cbn; try discriminate; try reflexivity; try lia.
Qed.

Lemma leb_trans (x y z : float) :
  (x <=? y)%float = true -> (y <=? z)%float = true -> (x <=? z)%float = true.
Proof. rewrite !leb_spec. apply SFleb_trans. Qed.

Lemma leb_total (x y : float) :
  PrimFloat.is_nan x = false -> PrimFloat.is_nan y = false ->
  (x <=? y)%float = false -> (y <=? x)%float = true.
Proof.
  intros Hx Hy. rewrite !leb_spec. unfold SFleb.
  destruct (SFcompare_total _ _ (Prim2SF_not_nan x Hx) (Prim2SF_not_nan y Hy)) as [c Hc].
  rewrite Hc, (SFcompare_antisym _ _ _ Hc).
  destruct c; simpl; congruence.
Qed.

Lemma leb_refl (x : float) :
  PrimFloat.is_nan x = false -> (x <=? x)%float = true.
Proof.
  intros Hx. destruct (x <=? x)%float eqn:E; [reflexivity|].
  pose proof (leb_total x x Hx Hx E). congruence.
Qed.

(** ** Minimum and maximum of a window of numbers *)

Definition numbers (a : list float) : Prop :=
  forall v, In v a -> PrimFloat.is_nan v = false.

Lemma minimum_spec (u v : float) :
  PrimFloat.is_nan u = false -> PrimFloat.is_nan v = false ->
  (np.minimum u v = u \/ np.minimum u v = v) /\
  (np.minimum u v <=? u)%float = true /\ (np.minimum u v <=? v)%float = true.
Proof.
  intros Hu Hv. unfold np.minimum. rewrite Hu, orb_false_r.
  destruct (u <=? v)%float eqn:E.
  - auto using leb_refl.
  - auto using leb_refl, leb_total.
Qed.

Lemma maximum_spec (u v : float) :
  PrimFloat.is_nan u = false -> PrimFloat.is_nan v = false ->
  (np.maximum u v = u \/ np.maximum u v = v) /\
  (u <=? np.maximum u v)%float = true /\ (v <=? np.maximum u v)%float = true.
Proof.
  intros Hu Hv. unfold np.maximum. rewrite Hu, orb_false_r.
  destruct (v <=? u)%float eqn:E.
  - auto using leb_refl.
  - auto using leb_refl, leb_total.
Qed.

Lemma fold_minimum_spec (rest : list float) (a : float) :
  numbers (a :: rest) ->
  In (fold_left np.minimum rest a) (a :: rest) /\
  forall v, In v (a :: rest) -> (fold_left np.minimum rest a <=? v)%float = true.
Proof.
  revert a. induction rest as [|b rest IH]; intros a Hnum.
  - cbn. split; [now left|]. intros v [<- | []]. apply leb_refl, Hnum. now left.
  - cbn [fold_left].
    assert (Ha : PrimFloat.is_nan a = false) by (apply Hnum; now left).
    assert (Hb : PrimFloat.is_nan b = false) by (apply Hnum; right; now left).
    destruct (minimum_spec a b Ha Hb) as (Hsel & Hla & Hlb).
    destruct (IH (np.minimum a b)) as [Hin Hle].
    { intros v [<- | Hv]; [destruct Hsel as [-> | ->]; assumption|].
      apply Hnum. right; now right. }
    split.
    + destruct Hin as [<- | Hin]; [|right; now right].
      destruct Hsel as [-> | ->]; [now left | right; now left].
    + intros v [<- | [<- | Hv]].
      * eapply leb_trans; [apply Hle; now left | exact Hla].
      * eapply leb_trans; [apply Hle; now left | exact Hlb].
      * apply Hle. now right.
Qed.

Lemma fold_maximum_spec (rest : list float) (a : float) :
  numbers (a :: rest) ->
  In (fold_left np.maximum rest a) (a :: rest) /\
  forall v, In v (a :: rest) -> (v <=? fold_left np.maximum rest a)%float = true.
Proof.
  revert a. induction rest as [|b rest IH]; intros a Hnum.
  - cbn. split; [now left|]. intros v [<- | []]. apply leb_refl, Hnum. now left.
  - cbn [fold_left].
    assert (Ha : PrimFloat.is_nan a = false) by (apply Hnum; now left).
    assert (Hb : PrimFloat.is_nan b = false) by (apply Hnum; right; now left).
    destruct (maximum_spec a b Ha Hb) as (Hsel & Hla & Hlb).
    destruct (IH (np.maximum a b)) as [Hin Hle].
    { intros v [<- | Hv]; [destruct Hsel as [-> | ->]; assumption|].
      apply Hnum. right; now right. }
    split.
    + destruct Hin as [<- | Hin]; [|right; now right].
      destruct Hsel as [-> | ->]; [now left | right; now left].
    + intros v [<- | [<- | Hv]].
      * eapply leb_trans; [exact Hla | apply Hle; now left].
      * eapply leb_trans; [exact Hlb | apply Hle; now left].
      * apply Hle. now right.
Qed.

(** On a non-empty array of numbers, [np.min] and [np.max] return elements
    of the array that bound all of it. *)
Lemma reduce_min_max (w : list float) :
  w <> [] -> numbers w ->
  In (reduce np.minimum w) w /\ In (reduce np.maximum w) w /\
  forall v, In v w ->
    (reduce np.minimum w <=? v)%float = true /\
    (v <=? reduce np.maximum w)%float = true.
Proof.
  destruct w as [|a rest]; [congruence|]. intros _ Hnum. unfold reduce. cbn [hd tl].
  destruct (fold_minimum_spec rest a Hnum) as [Hmin Hle].
  destruct (fold_maximum_spec rest a Hnum) as [Hmax Hge].
  auto.
Qed.

(** ** The feature builder *)

Section BuilderFacts.

Variable str_to_float : string -> float.

Local Abbreviation pfpp := (prepare_features_per_person str_to_float).
Local Abbreviation cycles_of := (cycle_values str_to_float).

Lemma builder_examples (df : DataFrame) (W : nat) (X : list (list float))
  (y : list float) :
1 <= W ->
pfpp df W = inr (X, y) ->
X = map (features_at (cycles_of df) (period_values str_to_float df)
           (first_value str_to_float df "Age")
           (first_value str_to_float df "BMI") W)
      (kept_offsets (cycles_of df) W) /\
y = map (target_at (cycles_of df) W) (kept_offsets (cycles_of df) W).
Proof.
intros HW H.
assert (Hc : has_column df "LengthofCycle" = true).
{ destruct (has_column df "LengthofCycle") eqn:Hc; [reflexivity|].
  rewrite (builder_key_error str_to_float df W Hc) in H. discriminate. }
rewrite (builder_spec str_to_float df W HW Hc) in H.
injection H as <- <-. split; reflexivity.
Qed.

(** For a window of at least one cycle the builder raises exactly when the
  table has no cycle-length column, and what it raises is the [KeyError]
  of that column: no index and no empty reduction goes wrong. *)
Theorem builder_raises_iff_no_cycle_column (df : DataFrame) (W : nat) (e : exn) :
1 <= W ->
(pfpp df W = inl e <->
 has_column df "LengthofCycle" = false /\ e = KeyError "LengthofCycle").
Proof.
intros HW. split.
- intros H. destruct (has_column df "LengthofCycle") eqn:Hc.
  + rewrite (builder_spec str_to_float df W HW Hc) in H. discriminate.
  + rewrite (builder_key_error str_to_float df W Hc) in H.
    split; congruence.
- intros [Hc ->]. exact (builder_key_error str_to_float df W Hc).
Qed.

Lemma window_step_grows (cycles : list float) (pl : option (list float))
  (age bmi : option float) (W : nat) (acc : Samples) (i : nat)
  (acc' : Samples) :
window_step cycles pl age bmi W acc i = inr acc' ->
List.length (fst acc') <= S (List.length (fst acc)).
Proof.
unfold window_step.
destruct (np.item cycles (i + W)) as [e|target]; [discriminate|]. cbn [bind].
destruct (out_of_range target); [intros [= <-]; lia|].
destruct (existsb out_of_range _); [intros [= <-]; lia|].
destruct (np.min _) as [e|lo]; [discriminate|]. cbn [bind].
destruct (np.max _) as [e|hi]; [discriminate|]. cbn [bind].
intros [= <-]. cbn [fst]. rewrite length_app. cbn. lia.
Qed.

Lemma for_each_grows {A : Type} (body : Samples -> A -> M Samples) :
(forall s x s', body s x = inr s' ->
                List.length (fst s') <= S (List.length (fst s))) ->
forall xs s s', for_each xs body s = inr s' ->
                List.length (fst s') <= List.length (fst s) + List.length xs.
Proof.
intros Hbody. induction xs as [|x xs IH]; intros s s' H.
- injection H as <-. lia.
- cbn [for_each] in H. destruct (body s x) as [e|s1] eqn:E; [discriminate|].
  cbn [bind] in H. apply IH in H. apply Hbody in E. cbn [List.length]. lia.
Qed.

(** Whatever the window length, [N] numeric cycle lengths give at most
  [N - sequence_length] examples. *)
Theorem examples_at_most_offsets (df : DataFrame) (W : nat)
  (X : list (list float)) (y : list float) :
pfpp df W = inr (X, y) ->
List.length X <= List.length (cycles_of df) - W.
Proof.
unfold prepare_features_per_person, getitem.
destruct (has_column df "LengthofCycle"); [|discriminate]. cbn [bind ret].
fold (cycle_values str_to_float df).
destruct (_ <? _); [intros [= <- <-]; cbn; lia|].
destruct (if has_column df "LengthofMenses" then _ else _) as [e|pl];
  [discriminate|]. cbn [bind].
destruct (first_numeric str_to_float df "Age") as [e|age]; [discriminate|].
destruct (first_numeric str_to_float df "BMI") as [e|bmi]; [discriminate|].
cbn [bind]. intros H.
apply (for_each_grows _ (window_step_grows _ pl age bmi W)) in H.
unfold range in H. rewrite length_seq in H. cbn in H. exact H.
Qed.

(** The first [W + 4] features: the window and its four statistics. *)
Lemma features_prefix (cycles : list float) (pl : option (list float))
  (age bmi : option float) (W i : nat) :
i + W <= List.length cycles ->
firstn (W + 4) (features_at cycles pl age bmi W i) =
  let w := window_at cycles W i in
  w ++ [np.mean w; np.std w; reduce np.minimum w; reduce np.maximum w].
Proof.
intros Hi. unfold features_at. cbv zeta.
set (w := window_at cycles W i).
assert (Hw : List.length w = W) by (apply window_length; lia).
change (w ++ [np.mean w; np.std w; reduce np.minimum w; reduce np.maximum w;
              period_feature pl i W; or_default age 30%float;
              or_default bmi 22%float])
  with (w ++ [np.mean w; np.std w; reduce np.minimum w; reduce np.maximum w]
          ++ [period_feature pl i W; or_default age 30%float;
              or_default bmi 22%float]).
rewrite app_assoc, firstn_app.
assert (Hlen : List.length
          (w ++ [np.mean w; np.std w; reduce np.minimum w; reduce np.maximum w])
        = W + 4) by (rewrite length_app, Hw; reflexivity).
rewrite Hlen, Nat.sub_diag. cbn [firstn].
rewrite app_nil_r. apply firstn_all2. lia.
Qed.

Lemma features_nth (cycles : list float) (pl : option (list float))
  (age bmi : option float) (W i k : nat) :
i + W <= List.length cycles ->
nth_error (features_at cycles pl age bmi W i) (W + k) =
  let w := window_at cycles W i in
  nth_error [np.mean w; np.std w; reduce np.minimum w; reduce np.maximum w;
             period_feature pl i W; or_default age 30%float;
             or_default bmi 22%float] k.
Proof.
intros Hi. unfold features_at. cbv zeta.
rewrite nth_error_app2 by (rewrite window_length by lia; lia).
rewrite window_length by lia. now replace (W + k - W) with k by lia.
Qed.

(** Which examples are kept, their targets, their windows and the window
  statistics are decided by the numeric cycle lengths alone: two tables
  with the same numeric cycle lengths get the same targets and the same
  first [sequence_length + 4] features, whatever their other columns and
  their non-numeric records. *)
Theorem windows_depend_on_cycles_only (df1 df2 : DataFrame) (W : nat)
  (X1 X2 : list (list float)) (y1 y2 : list float) :
1 <= W ->
cycles_of df1 = cycles_of df2 ->
pfpp df1 W = inr (X1, y1) ->
pfpp df2 W = inr (X2, y2) ->
y1 = y2 /\ map (firstn (W + 4)) X1 = map (firstn (W + 4)) X2.
Proof.
intros HW Hcycles H1 H2.
destruct (builder_examples _ _ _ _ HW H1) as [-> ->].
destruct (builder_examples _ _ _ _ HW H2) as [-> ->].
rewrite Hcycles. split; [reflexivity|].
rewrite !map_map. apply map_ext_in. intros i Hi.
apply kept_offsets_bound in Hi.
rewrite !features_prefix by lia. reflexivity.
Qed.

Lemma dropna_to_numeric_select (rows : list Row) (name : string) :
dropna (to_numeric str_to_float
          (map (fun r => r name)
             (filter (fun r => negb (PrimFloat.is_nan
                                       (to_numeric_scalar str_to_float (r name))))
                rows))) =
dropna (to_numeric str_to_float (map (fun r => r name) rows)).
Proof.
unfold dropna, to_numeric. induction rows as [|r rows IH]; [reflexivity|].
cbn [filter map].
destruct (negb (PrimFloat.is_nan (to_numeric_scalar str_to_float (r name))))
  eqn:E; cbn [filter map]; rewrite ?E; now rewrite IH.
Qed.

(** Records whose cycle length is not a number are left out, not read as
  zero: deleting them from the table changes neither the targets nor the
  windows and their statistics. *)
Theorem non_numeric_cycles_are_dropped (df : DataFrame) (W : nat)
  (X X' : list (list float)) (y y' : list float) :
1 <= W ->
pfpp df W = inr (X, y) ->
pfpp (select df (fun r => negb (PrimFloat.is_nan
                    (to_numeric_scalar str_to_float (r "LengthofCycle"))))) W
  = inr (X', y') ->
y' = y /\ map (firstn (W + 4)) X' = map (firstn (W + 4)) X.
Proof.
intros HW H H'.
destruct (builder_examples _ _ _ _ HW H) as [-> ->].
destruct (builder_examples _ _ _ _ HW H') as [-> ->].
unfold cycle_values, select. cbn [rows].
rewrite dropna_to_numeric_select.
fold (cycle_values str_to_float df). split; [reflexivity|].
rewrite !map_map. apply map_ext_in. intros i Hi.
apply kept_offsets_bound in Hi.
rewrite !features_prefix by lia. reflexivity.
Qed.

(** Age and BMI come from the first record alone: every example carries the
  first record's age, or 30.0 when there is no [Age] column or that one
  cell is not a number, whatever the later records say; the same for the
  BMI with 22.0. *)
Theorem age_bmi_from_first_record (df : DataFrame) (r : Row) (rest : list Row)
  (W : nat) (X : list (list float)) (y : list float) :
1 <= W ->
rows df = r :: rest ->
pfpp df W = inr (X, y) ->
let pick name default :=
  if has_column df name &&
     negb (PrimFloat.is_nan (to_numeric_scalar str_to_float (r name)))
  then to_numeric_scalar str_to_float (r name)
  else default in
Forall (fun features =>
          nth_error features (W + 5) = Some (pick "Age" 30%float) /\
          nth_error features (W + 6) = Some (pick "BMI" 22%float)) X.
Proof.
intros HW Hrows H pick.
destruct (builder_examples _ _ _ _ HW H) as [-> _].
apply Forall_forall. intros f Hf. apply in_map_iff in Hf as (i & <- & Hi).
apply kept_offsets_bound in Hi.
rewrite !features_nth by lia. cbn [nth_error].
unfold first_value, pick. rewrite Hrows. cbv zeta.
split.
- destruct (has_column df "Age"); [|reflexivity].
  now destruct (PrimFloat.is_nan _).
- destruct (has_column df "BMI"); [|reflexivity].
  now destruct (PrimFloat.is_nan _).
Qed.

(** The minimum and maximum features of an example are values of its own
  window, they bound every value of the window, and they lie inside
  [15, 60] like the window itself. *)
Theorem min_max_features_bound_window (df : DataFrame) (W : nat)
  (X : list (list float)) (y : list float) :
1 <= W ->
pfpp df W = inr (X, y) ->
Forall (fun features =>
  exists lo hi,
    nth_error features (W + 2) = Some lo /\
    nth_error features (W + 3) = Some hi /\
    In lo (firstn W features) /\ In hi (firstn W features) /\
    in_range lo = true /\ in_range hi = true /\
    forall v, In v (firstn W features) ->
      (lo <=? v)%float = true /\ (v <=? hi)%float = true) X.
Proof.
intros HW H.
destruct (builder_examples _ _ _ _ HW H) as [-> _].
apply Forall_forall. intros f Hf. apply in_map_iff in Hf as (i & <- & Hi).
pose proof (kept_offsets_bound _ _ _ Hi) as Hb.
set (w := window_at (cycles_of df) W i).
assert (Hlen : List.length w = W) by (apply window_length; lia).
assert (Hne : w <> []) by (intros E; rewrite E in Hlen; cbn in Hlen; lia).
assert (Hnum : numbers w).
{ intros v Hv. eapply dropna_not_nan, in_window, Hv. }
assert (Hrange : forall v, In v w -> in_range v = true).
{ unfold kept_offsets in Hi. apply filter_In in Hi as [_ Hp].
  rewrite passes_in_range in Hp
    by (try lia; intros v Hv; eapply dropna_not_nan, Hv).
  apply andb_true_iff in Hp as [_ Hp]. now apply forallb_forall. }
destruct (reduce_min_max w Hne Hnum) as (Hlo & Hhi & Hbound).
exists (reduce np.minimum w), (reduce np.maximum w).
rewrite features_window by lia. rewrite !features_nth by lia.
repeat split; auto; apply Hbound; assumption.
Qed.

(** The samples of one person are fit for training. *)
Lemma builder_valid (df : DataFrame) (s : Samples) :
pfpp df SEQUENCE_LENGTH = inr s -> valid_samples s.
Proof.
destruct s as [X y]. intros H.
assert (HW : 1 <= SEQUENCE_LENGTH) by (unfold SEQUENCE_LENGTH; lia).
destruct (builder_examples _ _ _ _ HW H) as [-> ->].
unfold valid_samples. cbn [fst snd]. rewrite !length_map.
split; [reflexivity|]. split; apply Forall_forall.
- intros f Hf. apply in_map_iff in Hf as (i & <- & Hi).
  apply kept_offsets_bound in Hi. unfold SEQUENCE_LENGTH in *.
  rewrite features_length by lia. reflexivity.
- intros t Ht. apply in_map_iff in Ht as (i & <- & Hi).
  pose proof (kept_offsets_bound _ _ _ Hi) as Hb.
  unfold kept_offsets in Hi. apply filter_In in Hi as [_ Hp].
  rewrite passes_in_range in Hp
    by (try lia; intros v Hv; eapply dropna_not_nan, Hv).
  now apply andb_true_iff in Hp as [Hp _].
Qed.

Lemma builder_raises_column (df : DataFrame) (e : exn) :
pfpp df SEQUENCE_LENGTH = inl e -> has_column df "LengthofCycle" = false.
Proof.
intros H. destruct (has_column df "LengthofCycle") eqn:Hc; [|reflexivity].
rewrite (builder_spec str_to_float df SEQUENCE_LENGTH) in H;
  [discriminate | unfold SEQUENCE_LENGTH; lia | exact Hc].
Qed.

Lemma valid_samples_app (s r : Samples) :
valid_samples s -> valid_samples r ->
valid_samples (fst s ++ fst r, snd s ++ snd r).
Proof.
intros (Hl & Hf & Ht) (Hl' & Hf' & Ht'). unfold valid_samples. cbn [fst snd].
rewrite !length_app, Hl, Hl'.
repeat split; apply Forall_app; split; assumption.
Qed.

(** ** The dataset assembler *)

Variable sort_values : DataFrame -> string -> DataFrame.

Local Abbreviation dataset := (prepare_dataset str_to_float sort_values).
Local Abbreviation frame := (person_frame sort_values).
Local Abbreviation step := (person_step str_to_float sort_values).

Lemma person_step_valid (df : DataFrame) (id_column : string) (acc : Samples)
  (person_id : Cell) (acc' : Samples) :
valid_samples acc ->
step df id_column acc person_id = inr acc' ->
valid_samples acc'.
Proof.
intros Hacc. unfold person_step.
destruct (pfpp _ SEQUENCE_LENGTH) as [e|r] eqn:E; [discriminate|]. cbn [bind].
apply builder_valid in E.
destruct (0 <? _); intros [= <-]; auto using valid_samples_app.
Qed.

Lemma dataset_valid (df : DataFrame) (s : Samples) :
dataset df = inr s -> valid_samples s.
Proof.
unfold prepare_dataset. destruct (find_id_column df) as [id_column|].
- destruct (getitem df id_column) as [e|ids]; [discriminate|]. cbn [bind].
  intros H.
  refine (for_each_invariant valid_samples _ _ _ ([], []) s _ H).
  + intros s0 x s'. apply person_step_valid.
  + repeat split; constructor.
- apply builder_valid.
Qed.

(** Whatever the table and whatever the sort, a dataset that the assembler
  returns is fit for training: as many targets as feature vectors, 13
  features in each, every target inside [15, 60]. *)
Theorem dataset_fit_for_training (df : DataFrame) (X : list (list float))
  (y : list float) :
dataset df = inr (X, y) ->
List.length X = List.length y /\
Forall (fun features => List.length features = 13) X /\
Forall (fun target => in_range target = true) y.
Proof.
intros H. apply dataset_valid in H.
destruct H as (Hlen & Hfeatures & Htargets). cbn [fst snd] in *.
repeat split; assumption.
Qed.

(** [main] reaches the training stage only with samples fit for training
  and at least one of them; every other run ends before it, in
  [sys.exit(1)] or in an uncaught exception. *)
Theorem training_gets_valid_samples (path_exists : string -> bool)
  (read_csv : string -> M DataFrame)
  (train_test_split : Samples -> float -> M (Samples * Samples))
  (train_and_export : Samples -> Samples -> Samples -> Outcome) :
(exists message,
    main str_to_float sort_values path_exists read_csv train_test_split
      train_and_export = SysExit 1 message) \/
(exists e,
    main str_to_float sort_values path_exists read_csv train_test_split
      train_and_export = Uncaught e) \/
(exists X y,
    main str_to_float sort_values path_exists read_csv train_test_split
      train_and_export
    = training_stage train_test_split train_and_export X y /\
    1 <= List.length X /\
    List.length X = List.length y /\
    Forall (fun features => List.length features = 13) X /\
    Forall (fun target => in_range target = true) y).
Proof.
unfold main, load_and_preprocess_data.
destruct (path_exists DATASET_PATH); cbn [negb]; [|left; eauto].
destruct (read_csv DATASET_PATH) as [e|df]; [right; left; eauto|].
destruct (dataset df) as [e|[X y]] eqn:Hd; [right; left; eauto|].
destruct X as [|f X]; [left; cbn; eauto|].
right; right. exists (f :: X), y. split; [reflexivity|].
split; [cbn; lia|].
exact (dataset_valid df (f :: X, y) Hd).
Qed.

Section Grouping.

(** What the grouped path needs of pandas' sort: it keeps the columns and
the number of rows. *)
Hypothesis sort_keeps_columns :
forall df by_column, columns (sort_values df by_column) = columns df.
Hypothesis sort_keeps_length :
forall df by_column,
List.length (rows (sort_values df by_column)) = List.length (rows df).

Lemma frame_has_column (df : DataFrame) (id_column name : string)
(person_id : Cell) :
has_column (frame df id_column person_id) name = has_column df name.
Proof.
unfold person_frame.
destruct (has_column (select df _) "CycleNumber"); [|reflexivity].
unfold has_column. now rewrite sort_keeps_columns.
Qed.

(** One turn of the loop over the persons appends that person's samples. *)
Lemma person_step_appends (df : DataFrame) (id_column : string) (acc : Samples)
(person_id : Cell) :
has_column df "LengthofCycle" = true ->
step df id_column acc person_id =
inr (fst acc ++ fst (returned (pfpp (frame df id_column person_id)
                                 SEQUENCE_LENGTH)),
     snd acc ++ snd (returned (pfpp (frame df id_column person_id)
                                 SEQUENCE_LENGTH))).
Proof.
intros Hc. unfold person_step.
destruct (pfpp (frame df id_column person_id) SEQUENCE_LENGTH)
as [e|[X y]] eqn:E.
- apply builder_raises_column in E. rewrite frame_has_column in E. congruence.
- cbn [bind returned fst snd].
destruct X as [|f X]; [|reflexivity].
apply builder_parallel in E. destruct y; [|discriminate].
cbn. rewrite !app_nil_r. now destruct acc.
Qed.

Lemma persons_appended (df : DataFrame) (id_column : string)
(persons : list Cell) (acc : Samples) :
has_column df "LengthofCycle" = true ->
for_each persons (step df id_column) acc =
inr (fst acc ++
     List.concat (map (fun person_id =>
                         fst (returned (pfpp (frame df id_column person_id)
                                          SEQUENCE_LENGTH))) persons),
     snd acc ++
     List.concat (map (fun person_id =>
                         snd (returned (pfpp (frame df id_column person_id)
                                          SEQUENCE_LENGTH))) persons)).
Proof.
intros Hc. revert acc. induction persons as [|person_id persons IH]; intros acc.
- cbn [for_each map List.concat]. rewrite !app_nil_r. now destruct acc.
- cbn [for_each]. rewrite (person_step_appends _ _ _ _ Hc). cbn [bind].
rewrite IH. cbn [fst snd map List.concat]. now rewrite !app_assoc.
Qed.

(** With an identifier column, the dataset is the concatenation of the
persons' samples, the persons taken in the order in which their
identifiers first appear in the file; a person without examples adds
nothing and disturbs no one else's. *)
Theorem dataset_is_concatenation (df : DataFrame) (id_column : string) :
has_column df "LengthofCycle" = true ->
find_id_column df = Some id_column ->
dataset df =
inr (List.concat (map (fun person_id =>
                    fst (returned (pfpp (frame df id_column person_id)
                                     SEQUENCE_LENGTH)))
               (unique (map (fun r => r id_column) (rows df)))),
     List.concat (map (fun person_id =>
                    snd (returned (pfpp (frame df id_column person_id)
                                     SEQUENCE_LENGTH)))
               (unique (map (fun r => r id_column) (rows df))))).
Proof.
intros Hc Hid. unfold prepare_dataset.
rewrite Hid, (getitem_present _ _ (find_id_column_is_column _ _ Hid)).
cbn [bind]. rewrite (persons_appended _ _ _ _ Hc). reflexivity.
Qed.

(** *** Records without an identifier *)

Lemma eqb_nan_l (x y : float) :
PrimFloat.is_nan x = true -> (x =? y)%float = false.
Proof.
intros H. rewrite eqb_spec. unfold Prim2SF at 1. now rewrite H.
Qed.

Lemma eqb_nan_r (x y : float) :
PrimFloat.is_nan y = true -> (x =? y)%float = false.
Proof.
intros H. rewrite eqb_spec. unfold SFeqb.
replace (Prim2SF y) with S754_nan by (unfold Prim2SF; now rewrite H).
now destruct (Prim2SF x).
Qed.

Lemma cell_eqb_missing_l (c d : Cell) :
missing c = true -> cell_eqb c d = false.
Proof.
destruct c as [x|s]; [|discriminate]. intros H.
destruct d; [apply eqb_nan_l, H | reflexivity].
Qed.

Lemma cell_eqb_missing_r (c d : Cell) :
missing d = true -> cell_eqb c d = false.
Proof.
destruct d as [y|t]; [|discriminate]. intros H.
destruct c; [apply eqb_nan_r, H | reflexivity].
Qed.

Lemma same_key_missing (c d : Cell) :
missing c = false -> missing d = true -> same_key c d = false.
Proof.
destruct c as [x|s], d as [y|t]; cbn; try discriminate; try reflexivity.
intros Hx Hy. now rewrite (eqb_nan_r x y Hy), Hx.
Qed.

Lemma same_key_both_missing (c d : Cell) :
missing c = true -> missing d = true -> same_key c d = true.
Proof.
destruct c as [x|s], d as [y|t]; cbn; try discriminate.
intros -> ->. apply orb_true_r.
Qed.

(** The persons of a table without its missing identifiers are the persons
of the table, the missing one left out. *)
Lemma unique_from_present (seen series : list Cell) :
filter (fun c => negb (missing c)) (unique_from seen series) =
unique_from (filter (fun c => negb (missing c)) seen)
(filter (fun c => negb (missing c)) series).
Proof.
revert seen. induction series as [|c series IH]; intros seen; [reflexivity|].
cbn [unique_from filter]. destruct (missing c) eqn:Hm; cbn [negb].
- destruct (existsb (same_key c) seen); [apply IH|].
cbn [filter]. rewrite Hm. cbn [negb]. rewrite IH. cbn [filter].
now rewrite Hm.
- assert (Hex : existsb (same_key c) (filter (fun c => negb (missing c)) seen)
              = existsb (same_key c) seen).
{ clear IH. induction seen as [|d seen IHs]; [reflexivity|].
  cbn [filter existsb]. destruct (missing d) eqn:Hd; cbn [negb existsb].
  - now rewrite (same_key_missing c d Hm Hd), IHs.
  - now rewrite IHs. }
cbn [unique_from]. rewrite Hex.
destruct (existsb (same_key c) seen); [apply IH|].
cbn [filter]. rewrite Hm. cbn [negb]. rewrite IH. cbn [filter].
now rewrite Hm.
Qed.

(** A missing identifier selects no record, so its turn of the loop adds
nothing. *)
Lemma person_step_missing (df : DataFrame) (id_column : string) (acc : Samples)
(person_id : Cell) :
has_column df "LengthofCycle" = true ->
missing person_id = true ->
step df id_column acc person_id = inr acc.
Proof.
intros Hc Hm. rewrite (person_step_appends _ _ _ _ Hc).
assert (Hrows : rows (frame df id_column person_id) = []).
{ assert (Hsel : rows (select df (fun r => cell_eqb (r id_column) person_id))
               = []).
{ cbn [select rows]. apply filter_none. intros r _.
  apply cell_eqb_missing_r, Hm. }
unfold person_frame. destruct (has_column _ "CycleNumber"); [|exact Hsel].
apply length_zero_iff_nil. now rewrite sort_keeps_length, Hsel. }
rewrite (builder_spec str_to_float _ SEQUENCE_LENGTH)
by (try (unfold SEQUENCE_LENGTH; lia); now rewrite frame_has_column).
unfold cycle_values. rewrite Hrows. cbn. rewrite !app_nil_r. now destruct acc.
Qed.

Lemma for_each_skip_missing (df : DataFrame) (id_column : string)
(persons : list Cell) (acc : Samples) :
has_column df "LengthofCycle" = true ->
for_each (filter (fun c => negb (missing c)) persons) (step df id_column) acc =
for_each persons (step df id_column) acc.
Proof.
intros Hc. revert acc. induction persons as [|c persons IH]; intros acc;
[reflexivity|].
cbn [filter for_each]. destruct (missing c) eqn:Hm; cbn [negb for_each].
- rewrite (person_step_missing _ _ _ _ Hc Hm). cbn [bind]. apply IH.
- destruct (step df id_column acc c); [reflexivity|]. cbn [bind]. apply IH.
Qed.

Lemma for_each_ext {A S : Type} (f g : S -> A -> M S) (xs : list A) (s : S) :
(forall s x, f s x = g s x) -> for_each xs f s = for_each xs g s.
Proof.
intros Hfg. revert s. induction xs as [|x xs IH]; intros s; [reflexivity|].
cbn [for_each]. rewrite Hfg. destruct (g s x); [reflexivity|]. apply IH.
Qed.

Lemma present_identifiers (id_column : string) (records : list Row) :
map (fun r => r id_column)
(filter (fun r : Row => negb (missing (r id_column))) records) =
filter (fun c => negb (missing c)) (map (fun r => r id_column) records).
Proof.
induction records as [|r rs IH]; [reflexivity|].
cbn [filter map]. destruct (negb (missing (r id_column)));
cbn [map]; now rewrite IH.
Qed.

Lemma select_person_present (id_column : string) (c : Cell) (records : list Row) :
filter (fun r : Row => cell_eqb (r id_column) c)
(filter (fun r : Row => negb (missing (r id_column))) records) =
filter (fun r : Row => cell_eqb (r id_column) c) records.
Proof.
induction records as [|r rs IH]; [reflexivity|].
cbn [filter]. destruct (missing (r id_column)) eqn:Hm; cbn [negb filter].
- rewrite (cell_eqb_missing_l _ c Hm). exact IH.
- now rewrite IH.
Qed.

Lemma person_step_present (df : DataFrame) (id_column : string) (acc : Samples)
(c : Cell) :
step (select df (fun r : Row => negb (missing (r id_column)))) id_column acc c
= step df id_column acc c.
Proof.
unfold person_step, person_frame, select. cbn [rows columns].
now rewrite select_person_present.
Qed.

(** Records whose identifier is missing belong to no person: deleting them
from the table leaves the dataset as it was. *)
Theorem missing_identifiers_contribute_nothing (df : DataFrame)
(id_column : string) :
has_column df "LengthofCycle" = true ->
find_id_column df = Some id_column ->
dataset (select df (fun r => negb (missing (r id_column)))) = dataset df.
Proof.
intros Hc Hid. unfold prepare_dataset.
change (find_id_column (select df _)) with (find_id_column df).
rewrite Hid. unfold getitem.
change (has_column (select df _) id_column) with (has_column df id_column).
rewrite (find_id_column_is_column _ _ Hid). cbn [bind ret select rows].
rewrite present_identifiers. unfold unique.
pose proof (unique_from_present [] (map (fun r => r id_column) (rows df)))
as Hu.
cbn [filter] in Hu. rewrite <- Hu.
rewrite <- (for_each_skip_missing df id_column
            (unique_from [] (map (fun r => r id_column) (rows df))) _ Hc).
apply for_each_ext. intros acc c.
exact (person_step_present df id_column acc c).
Qed.

End Grouping.

(** A table whose records all carry one and the same identifier, with no
  [CycleNumber] column to sort by: grouping changes nothing, the dataset
  is what the feature builder makes of the whole table. *)
Theorem single_person_same_as_ungrouped (df : DataFrame) (id_column : string)
  (person_id : Cell) :
find_id_column df = Some id_column ->
has_column df "CycleNumber" = false ->
rows df <> [] ->
cell_eqb person_id person_id = true ->
(forall r, In r (rows df) -> r id_column = person_id) ->
dataset df = pfpp df SEQUENCE_LENGTH.
Proof.
intros Hid Hno Hrows Hself Hall. unfold prepare_dataset.
rewrite Hid, (getitem_present _ _ (find_id_column_is_column _ _ Hid)).
cbn [bind].
assert (Hkey : same_key person_id person_id = true).
{ destruct person_id; cbn in *; [now rewrite Hself | exact Hself]. }
assert (Huniq : unique (map (fun r => r id_column) (rows df)) = [person_id]).
{ destruct (rows df) as [|r rest]; [congruence|].
  unfold unique. cbn [map unique_from existsb].
  rewrite (Hall r (or_introl eq_refl)). f_equal.
  assert (Hrest : forall r', In r' rest -> r' id_column = person_id)
    by (intros; apply Hall; now right).
  clear Hall Hrows. induction rest as [|r' rest IH]; [reflexivity|].
  cbn [map unique_from existsb].
  rewrite (Hrest r' (or_introl eq_refl)), Hkey. cbn [orb].
  apply IH. intros; apply Hrest; now right. }
rewrite Huniq. cbn [for_each]. unfold person_step, person_frame.
change (has_column (select df _) "CycleNumber")
  with (has_column df "CycleNumber").
rewrite Hno.
assert (Hsel : select df (fun r => cell_eqb (r id_column) person_id) = df).
{ unfold select. rewrite forallb_filter_id; [now destruct df|].
  apply forallb_forall. intros r Hr. now rewrite (Hall r Hr). }
rewrite Hsel.
destruct (pfpp df SEQUENCE_LENGTH) as [e|[X y]] eqn:E; [reflexivity|].
cbn [bind fst snd]. destruct X as [|f X]; [|reflexivity].
apply builder_parallel in E. now destruct y.
Qed.

Lemma lower_append (s t : string) :
lower (String.append s t) = String.append (lower s) (lower t).
Proof. induction s as [|c s IH]; cbn; [reflexivity | now rewrite IH]. Qed.

(** The fallback match ignores case: a column name with "id" or "client"
  anywhere in it, in any mix of capitals and small letters, looks like an
  identifier. *)
Theorem id_match_ignores_case (pre mid post : string) :
lower mid = "id" \/ lower mid = "client" ->
looks_like_id (String.append pre (String.append mid post)) = true.
Proof.
intros H. unfold looks_like_id. rewrite !lower_append.
apply orb_true_iff. destruct H as [-> | ->]; [left | right];
  apply contains_spec; exists (lower pre), (lower post); reflexivity.
Qed.

(** ** A window of no cycles *)

Lemma skipn_cons_nth {A : Type} (l : list A) (a : nat) (d : A) :
a < List.length l -> skipn a l = nth a l d :: skipn (S a) l.
Proof.
revert a. induction l as [|x l IH]; intros a Ha; [cbn in Ha; lia|].
destruct a as [|a]; [reflexivity|]. cbn [skipn nth].
rewrite (IH a) by (cbn in Ha; lia). reflexivity.
Qed.

Lemma empty_window_loop (cycles : list float) (pl : option (list float))
  (age bmi : option float) (n a : nat) (acc : Samples) :
a + n <= List.length cycles ->
for_each (seq a n) (window_step cycles pl age bmi 0) acc =
  if forallb out_of_range (firstn n (skipn a cycles)) then inr acc
  else inl ValueError.
Proof.
revert a acc. induction n as [|n IH]; intros a acc Hlen; [reflexivity|].
cbn [seq for_each]. rewrite (skipn_cons_nth cycles a nan) by lia.
cbn [firstn forallb]. unfold window_step at 1.
rewrite Nat.add_0_r, (item_in_range cycles a nan) by lia. cbn [bind].
unfold np.slice. rewrite Nat.sub_diag. cbn [firstn existsb].
destruct (out_of_range (nth a cycles nan)); cbn [andb bind np.min raise];
  [|reflexivity].
apply IH. lia.
Qed.

(** With [sequence_length = 0] the builder makes no example at all: when
  every numeric cycle length is outside [15, 60] (or there is none) it
  returns the empty samples, and as soon as one is inside, [np.min] of the
  empty window raises a [ValueError]. *)
Theorem empty_window_raises (df : DataFrame) :
has_column df "LengthofCycle" = true ->
pfpp df 0 =
  if forallb out_of_range (cycles_of df) then inr ([], [])
  else inl ValueError.
Proof.
intros Hc. unfold prepare_features_per_person.
rewrite (getitem_present _ _ Hc). cbn [bind].
fold (cycle_values str_to_float df).
destruct (Nat.ltb_spec (List.length (cycles_of df)) (0 + 1)) as [Hshort|Hlong].
- destruct (cycles_of df); [reflexivity | cbn in Hshort; lia].
- assert (Hrows : rows df <> []).
  { pose proof (cycle_values_rows str_to_float df) as Hle.
    destruct (rows df); [cbn in Hle; lia | congruence]. }
  assert (Hp : (if has_column df "LengthofMenses"
                then pcol <- getitem df "LengthofMenses" ;;
                     ret (Some (dropna (to_numeric str_to_float pcol)))
                else ret None) = inr (period_values str_to_float df)).
  { unfold period_values.
    destruct (has_column df "LengthofMenses") eqn:Hm; [|reflexivity].
    now rewrite (getitem_present _ _ Hm). }
  rewrite Hp. cbn [bind].
  rewrite !(first_numeric_spec _ _ _ Hrows). cbn [bind].
  unfold range. rewrite empty_window_loop by lia.
  rewrite Nat.sub_0_r. cbn [skipn]. now rewrite firstn_all.
Qed.

(** ** The names of the features *)

(** The names the exporter writes beside the scaler are the features the
  builder makes, position by position: the six cycles of the window, then
  mean, standard deviation, minimum and maximum of the window, the period
  length, the age and the BMI. *)
Theorem feature_names_match_features (df : DataFrame) (X : list (list float))
  (y : list float) :
pfpp df SEQUENCE_LENGTH = inr (X, y) ->
Forall (fun features =>
  List.length features = List.length feature_names /\
  exists i,
    let w := np.slice (cycles_of df) i (i + 6) in
    combine feature_names features =
      combine ["cycle_1"; "cycle_2"; "cycle_3"; "cycle_4"; "cycle_5"; "cycle_6"] w
      ++ [("mean", np.mean w); ("std", np.std w);
          ("min", reduce np.minimum w); ("max", reduce np.maximum w);
          ("period_length", period_feature (period_values str_to_float df) i 6);
          ("age", or_default (first_value str_to_float df "Age") 30%float);
          ("bmi", or_default (first_value str_to_float df "BMI") 22%float)]) X.
Proof.
intros H.
assert (HW : 1 <= SEQUENCE_LENGTH) by (unfold SEQUENCE_LENGTH; lia).
destruct (builder_examples _ _ _ _ HW H) as [-> _].
apply Forall_forall. intros f Hf. apply in_map_iff in Hf as (i & <- & Hi).
apply kept_offsets_bound in Hi. unfold SEQUENCE_LENGTH in *.
split; [rewrite features_length by lia; reflexivity|].
exists i. cbv zeta. unfold features_at. cbv zeta.
fold (window_at (cycles_of df) 6 i).
pose proof (window_length (cycles_of df) 6 i ltac:(lia)) as Hlen.
destruct (window_at (cycles_of df) 6 i) as [|c1 [|c2 [|c3 [|c4 [|c5 [|c6 [|c7 w]]]]]]];
  try discriminate.
reflexivity.
Qed.

End BuilderFacts.

(** ** The exporter *)

Lemma export_layers_from (layers : list (list (list float) * list float))
    (acc : list Json * list Json) :
  fold_left
    (fun acc layer =>
       (fst acc ++ [tolist2 (fst layer)], snd acc ++ [tolist1 (snd layer)]))
    layers acc =
  (fst acc ++ map (fun layer => tolist2 (fst layer)) layers,
   snd acc ++ map (fun layer => tolist1 (snd layer)) layers).
Proof.
  revert acc. induction layers as [|layer layers IH]; intros acc.
  - cbn. rewrite !app_nil_r. now destruct acc.
  - cbn [fold_left map]. rewrite IH. cbn [fst snd]. now rewrite <- !app_assoc.
Qed.

Lemma combine_fst_firstn {A B : Type} (l : list A) (l' : list B) :
  map fst (combine l l') = firstn (Nat.min (List.length l) (List.length l')) l.
Proof.
  revert l'. induction l as [|a l IH]; intros [|b l']; cbn; try reflexivity.
  now rewrite IH.
Qed.

Lemma combine_snd_firstn {A B : Type} (l : list A) (l' : list B) :
  map snd (combine l l') = firstn (Nat.min (List.length l) (List.length l')) l'.
Proof.
  revert l'. induction l as [|a l IH]; intros [|b l']; cbn; try reflexivity.
  now rewrite IH.
Qed.

(** The exported weights and biases go in pairs: there are as many of each
    as the model has layers with both a weight matrix and a bias vector,
    they are those layers' in order, and a surplus matrix or vector is left
    out without an error. *)
Theorem exported_layers_in_pairs (model : sk.MLPRegressor) :
  let n := Nat.min (List.length (sk.coefs_ model))
                   (List.length (sk.intercepts_ model)) in
  export_layers model =
    (map tolist2 (firstn n (sk.coefs_ model)),
     map tolist1 (firstn n (sk.intercepts_ model))) /\
  List.length (fst (export_layers model)) = n /\
  List.length (snd (export_layers model)) = n.
Proof.
  intros n. unfold export_layers. rewrite export_layers_from. cbn [fst snd app].
  rewrite <- (map_map fst tolist2), <- (map_map snd tolist1).
  rewrite combine_fst_firstn, combine_snd_firstn. fold n.
  split; [reflexivity|]. cbn [fst snd].
  rewrite !length_map, !length_firstn. subst n. lia.
Qed.

(** ** The further properties at concrete tables *)

Lemma builder_raises_iff_no_cycle_column_witness :
  prepare_features_per_person demo_str_to_float no_cycle_column 6
    = inl (KeyError "LengthofCycle").
Proof.
  apply (proj2 (builder_raises_iff_no_cycle_column demo_str_to_float
                  no_cycle_column 6 (KeyError "LengthofCycle") ltac:(lia))).
  split; reflexivity.
Defined.

Lemma examples_at_most_offsets_witness :
  List.length
    (fst (returned (prepare_features_per_person demo_str_to_float full_records 6)))
  <= 14 - 6.
Proof.
  apply (examples_at_most_offsets demo_str_to_float full_records 6
    (fst (returned (prepare_features_per_person demo_str_to_float full_records 6)))
    (snd (returned (prepare_features_per_person demo_str_to_float full_records 6)))).
  vm_compute. reflexivity.
Defined.

Lemma windows_depend_on_cycles_only_witness :
  snd (returned (prepare_features_per_person demo_str_to_float cycles_only 6)) =
  snd (returned (prepare_features_per_person demo_str_to_float
                   seven_without_optional 6)).
Proof.
  apply (windows_depend_on_cycles_only demo_str_to_float
    cycles_only seven_without_optional 6
    (fst (returned (prepare_features_per_person demo_str_to_float cycles_only 6)))
    (fst (returned (prepare_features_per_person demo_str_to_float
                      seven_without_optional 6)))).
  - lia.
  - vm_compute. reflexivity.
  - vm_compute. reflexivity.
  - vm_compute. reflexivity.
Defined.

Lemma non_numeric_cycles_are_dropped_witness :
  snd (returned (prepare_features_per_person demo_str_to_float
         (select cycles_with_gaps
            (fun r => negb (PrimFloat.is_nan
               (to_numeric_scalar demo_str_to_float (r "LengthofCycle"))))) 6))
  = snd (returned (prepare_features_per_person demo_str_to_float
                     cycles_with_gaps 6)) /\
  snd (returned (prepare_features_per_person demo_str_to_float
                   cycles_with_gaps 6)) = [29; 30]%float.
Proof.
  split; [|vm_compute; reflexivity].
  apply (non_numeric_cycles_are_dropped demo_str_to_float cycles_with_gaps 6
    (fst (returned (prepare_features_per_person demo_str_to_float
                      cycles_with_gaps 6)))
    (fst (returned (prepare_features_per_person demo_str_to_float
         (select cycles_with_gaps
            (fun r => negb (PrimFloat.is_nan
               (to_numeric_scalar demo_str_to_float (r "LengthofCycle"))))) 6)))).
  - lia.
  - vm_compute. reflexivity.
  - vm_compute. reflexivity.
Defined.

Lemma age_bmi_from_first_record_witness :
  Forall (fun features =>
            nth_error features 11 = Some 30%float /\
            nth_error features 12 = Some 21.5%float)
    (fst (returned (prepare_features_per_person demo_str_to_float
                      age_missing_first 6))).
Proof.
  exact (age_bmi_from_first_record demo_str_to_float age_missing_first
    (hd (record []) (rows age_missing_first)) (tl (rows age_missing_first)) 6
    (fst (returned (prepare_features_per_person demo_str_to_float
                      age_missing_first 6)))
    (snd (returned (prepare_features_per_person demo_str_to_float
                      age_missing_first 6)))
    ltac:(lia) eq_refl ltac:(vm_compute; reflexivity)).
Defined.

Lemma min_max_features_bound_window_witness :
  Forall (fun features =>
            exists lo hi,
              nth_error features 8 = Some lo /\ nth_error features 9 = Some hi /\
              in_range lo = true /\ in_range hi = true)
    (fst (returned (prepare_features_per_person demo_str_to_float full_records 6))).
Proof.
  pose proof (min_max_features_bound_window demo_str_to_float full_records 6
    (fst (returned (prepare_features_per_person demo_str_to_float full_records 6)))
    (snd (returned (prepare_features_per_person demo_str_to_float full_records 6)))
    ltac:(lia) ltac:(vm_compute; reflexivity)) as H.
  eapply Forall_impl; [|exact H].
  intros f (lo & hi & Hlo & Hhi & _ & _ & Hrlo & Hrhi & _).
  exists lo, hi. repeat split; assumption.
Defined.

Lemma dataset_fit_for_training_witness :
  Forall (fun target => in_range target = true)
    (snd (returned (prepare_dataset demo_str_to_float demo_sort_values two_clients))).
Proof.
  destruct (dataset_fit_for_training demo_str_to_float demo_sort_values two_clients
    (fst (returned (prepare_dataset demo_str_to_float demo_sort_values two_clients)))
    (snd (returned (prepare_dataset demo_str_to_float demo_sort_values two_clients))))
    as (_ & _ & Ht); [vm_compute; reflexivity|].
  exact Ht.
Defined.

Lemma dataset_is_concatenation_witness :
  prepare_dataset demo_str_to_float demo_sort_values two_clients =
    inr (List.concat
           (map (fun person_id =>
                   fst (returned (prepare_features_per_person demo_str_to_float
                          (person_frame demo_sort_values two_clients "ClientID"
                             person_id) SEQUENCE_LENGTH)))
              [Str "nfp8122"; Str "nfp8114"]),
         List.concat
           (map (fun person_id =>
                   snd (returned (prepare_features_per_person demo_str_to_float
                          (person_frame demo_sort_values two_clients "ClientID"
                             person_id) SEQUENCE_LENGTH)))
              [Str "nfp8122"; Str "nfp8114"])).
Proof.
  exact (dataset_is_concatenation demo_str_to_float demo_sort_values
           (fun _ _ => eq_refl) two_clients "ClientID" eq_refl eq_refl).
Defined.

Lemma missing_identifiers_contribute_nothing_witness :
  prepare_dataset demo_str_to_float demo_sort_values
    (select clients_with_gap (fun r => negb (missing (r "ClientID"))))
  = prepare_dataset demo_str_to_float demo_sort_values clients_with_gap /\
  snd (returned (prepare_dataset demo_str_to_float demo_sort_values
                   clients_with_gap)) = [28%float].
Proof.
  split; [|vm_compute; reflexivity].
  apply (missing_identifiers_contribute_nothing demo_str_to_float demo_sort_values).
  - reflexivity.
  - intros df by_column. cbn. apply length_rev.
  - reflexivity.
  - reflexivity.
Defined.

Lemma single_person_same_as_ungrouped_witness :
  prepare_dataset demo_str_to_float demo_sort_values one_client =
  prepare_features_per_person demo_str_to_float one_client SEQUENCE_LENGTH.
Proof.
  apply (single_person_same_as_ungrouped demo_str_to_float demo_sort_values
           one_client "ClientID" (Str "nfp8122")).
  - reflexivity.
  - reflexivity.
  - discriminate.
  - reflexivity.
  - intros r Hr. cbn in Hr.
    repeat (destruct Hr as [<- | Hr]; [reflexivity|]). destruct Hr.
Defined.

Lemma id_match_ignores_case_witness :
  looks_like_id "PatientID" = true /\ looks_like_id "CLIENT_no" = true.
Proof.
  split.
  - apply (id_match_ignores_case "Patient" "ID" ""). left. reflexivity.
  - apply (id_match_ignores_case "" "CLIENT" "_no"). right. reflexivity.
Defined.

Lemma empty_window_raises_witness :
  prepare_features_per_person demo_str_to_float cycles_only 0 = inl ValueError.
Proof.
  exact (empty_window_raises demo_str_to_float cycles_only eq_refl).
Defined.

Lemma feature_names_match_features_witness :
  Forall (fun features => List.length features = 13)
    (fst (returned (prepare_features_per_person demo_str_to_float full_records 6))).
Proof.
  pose proof (feature_names_match_features demo_str_to_float full_records
    (fst (returned (prepare_features_per_person demo_str_to_float full_records 6)))
    (snd (returned (prepare_features_per_person demo_str_to_float full_records 6)))
    ltac:(vm_compute; reflexivity)) as H.
  eapply Forall_impl; [|exact H]. intros f [Hlen _]. exact Hlen.
Defined.
